(** * Netzob: the fuzzing mutators and the SHA2_512 hash relation

    A shallow embedding of
      - netzob/Fuzzing/Mutator.py                       (class Mutator)
      - netzob/Fuzzing/Mutators/StringMutator.py        (class StringMutator)
      - netzob/Model/.../Leafs/Hash.py, Hashes/SHA2_512.py (class SHA2_512)
    together with the properties of the mutation budget, the length bounds of
    the string mutator and the digest relation. *)

From Stdlib Require Import ZArith List String Bool Lia.
From Stdlib.Strings Require Import Byte.
Import ListNotations.
Local Open Scope Z_scope.

(** ** Python values and exceptions *)

(** The Python values that reach the modelled methods as arguments. *)
#[warnings="-register-all"]
Inductive pyval : Type :=
| PyNone
| PyInt (z : Z)
| PyStr (s : string)
| PyBytes (b : list byte)
| PyTuple (l : list pyval)
| PyList (l : list pyval).

(** The exceptions raised by the modelled code. [Exception] carries its
    message, as in [raise Exception("Max mutation counter reached")]. *)
Inductive exn : Type :=
| Exception (msg : string)
| TypeError
| OverflowError
| NotImplementedError.

(** Result of a call: a returned value or a raised exception. *)
Inductive outcome (A : Type) : Type :=
| Return (a : A)
| Raise (e : exn).
Arguments Return {A} a.
Arguments Raise {A} e.

(** A method of an object whose attributes are of type [S]: it receives the
    object and gives back the outcome and the object as the call left it.  A
    raised exception does not undo the assignments made before it. *)
Definition method (S A : Type) : Type := S -> outcome A * S.

Definition ret {S A} (a : A) : method S A := fun s => (Return a, s).
Definition raise {S A} (e : exn) : method S A := fun s => (Raise e, s).
Definition bind {S A B} (c : method S A) (k : A -> method S B) : method S B :=
  fun s => match c s with
           | (Return a, s') => k a s'
           | (Raise e, s') => (Raise e, s')
           end.
Definition get {S} : method S S := fun s => (Return s, s).
Definition put {S} (s : S) : method S unit := fun _ => (Return tt, s).

Declare Scope method_scope.
Delimit Scope method_scope with method.
Notation "x <- c ;; k" := (bind c (fun x => k))
  (at level 61, c at next level, right associativity) : method_scope.
Notation "c ;; k" := (bind c (fun _ => k))
  (at level 61, right associativity) : method_scope.

(** [isinstance(v, int)] *)
Definition isinstance_int (v : pyval) : bool :=
  match v with PyInt _ => true | _ => false end.

(** [isinstance(v, list)] *)
Definition isinstance_list (v : pyval) : bool :=
  match v with PyList _ => true | _ => false end.

(** [isinstance(v, str)] *)
Definition isinstance_str (v : pyval) : bool :=
  match v with PyStr _ => true | _ => false end.

(** A sequence of strings, as the type annotation [list of str] and the
    description of the [naughtyStrings] argument understand it: a list or a
    tuple whose elements are all of type [str]. *)
Definition is_str_sequence (v : pyval) : bool :=
  match v with
  | PyList l => forallb isinstance_str l
  | PyTuple l => forallb isinstance_str l
  | _ => false
  end.

(** [isinstance(v, tuple) and len(v) == 2 and all(isinstance(_, int) for _ in v)],
    the test applied both to [interval] and to [dom_size]; it gives the two
    integers when it holds. *)
Definition int_pair (v : pyval) : option (Z * Z) :=
  match v with
  | PyTuple [PyInt a; PyInt b] => Some (a, b)
  | _ => None
  end.

(** The same test written the way the source spells it. *)
Definition is_int_pair (v : pyval) : bool :=
  match v with
  | PyTuple l => (Nat.eqb (List.length l) 2) && forallb isinstance_int l
  | _ => false
  end.

(** ** Mutator.py *)

Module Mutator.

(** The attributes set by [Mutator.__init__].  The constructor stores
    [seed] unchecked, so it is kept as a Python value; the counters are
    integers. *)
Record t : Type := mk {
  _seed : pyval;
  _currentState : Z;
  _counterMax : Z;
  _currentCounter : Z
}.

Definition SEED_DEFAULT : Z := 10.
Definition COUNTER_MAX_DEFAULT : Z := 2 ^ 16.

Definition init (seed : pyval) (counterMax : Z) : t :=
  {| _seed := seed;
     _currentState := 0;
     _counterMax := counterMax;
     _currentCounter := 0 |}.

Definition set_seed (v : pyval) (m : t) : t :=
  {| _seed := v;
     _currentState := _currentState m;
     _counterMax := _counterMax m;
     _currentCounter := _currentCounter m |}.

Definition set_currentCounter (c : Z) (m : t) : t :=
  {| _seed := _seed m;
     _currentState := _currentState m;
     _counterMax := _counterMax m;
     _currentCounter := c |}.

Section TypeCheck.
(** The decorator [typeCheck(int)] comes from
    netzob.Common.Utils.Decorators, which is not part of the sources at
    hand: the values it lets through are a parameter. *)
Variable typeCheck_int : pyval -> bool.

(** [@typeCheck(int) def updateSeed(self, seedValue)] *)
Definition updateSeed (seedValue : pyval) : method t unit :=
  fun self =>
    if typeCheck_int seedValue
    then (Return tt, set_seed seedValue self)
    else (Raise TypeError, self).
End TypeCheck.

(** [def resetCurrentCounter(self): self._currentCounter = 0] *)
Definition resetCurrentCounter : method t unit :=
  fun self => (Return tt, set_currentCounter 0 self).

(** [def reset(self): self._currentCounter = 0] *)
Definition reset : method t unit :=
  fun self => (Return tt, set_currentCounter 0 self).

Definition budget_exhausted : exn :=
  Exception "Max mutation counter reached"%string.

(** [def generate(self)]: the check, then the increment; the base method
    returns [None]. *)
Definition generate : method t pyval :=
  fun self =>
    if _currentCounter self >=? _counterMax self
    then (Raise budget_exhausted, self)
    else (Return PyNone, set_currentCounter (_currentCounter self + 1) self).

(** [for _ in range(n): self.generate()]: [n] calls in a row, stopped by
    the first exception. *)
Fixpoint generate_times (n : nat) : method t unit :=
  match n with
  | O => ret tt
  | S n' => (_ <- generate ;; generate_times n')%method
  end.

End Mutator.

(** ** The declared type of a field domain *)

Inductive Endianness : Type := BIG | LITTLE.
Inductive Sign : Type := SIGNED | UNSIGNED.

(** Modelled from the spec: the [UnitSize] enumeration of
    netzob.Model.Vocabulary.Types.AbstractType is not among the sources; the
    spec names a unit size without listing its members.  A member is known
    here by the integer that its [value] attribute gives. *)
Inductive UnitSize : Type := SIZE (bits : Z).

Definition UnitSize_value (u : UnitSize) : Z :=
  match u with SIZE n => n end.

Definition SIZE_8 : UnitSize := SIZE 8.

(** What the sources read of [domain.dataType] (and of [self.dataType] in a
    relation): [size] is a Python value, a pair of bit lengths when the field
    is of variable size. *)
Record dataType : Type := mkDataType {
  size : pyval;
  unitSize : UnitSize;
  endianness : Endianness;
  sign : Sign
}.

(** ** StringMutator.py *)

(** The collaborators of StringMutator that are not among the sources:
    the generator factory, the padded string generator, the iterator protocol
    of the generator objects and the [String.decode] codec.  Each of them may
    raise. *)
Class Collaborators : Type := {
  (** generator objects (anything that [next()] accepts) *)
  Generator : Type;
  (** [GeneratorFactory.buildGenerator(kind, seed=, minValue=, maxValue=,
      bitsize=, signed=)] *)
  buildGenerator : string -> pyval -> Z -> Z -> Z -> bool -> outcome Generator;
  (** [StringPaddedGenerator(lengthGenerator, stringsList, endchar)] *)
  StringPaddedGenerator : Generator -> pyval -> string -> outcome Generator;
  (** [next(generator)]: the value and the advanced generator *)
  next : Generator -> outcome (list byte) * Generator;
  (** [String.decode(value, unitSize=, endianness=, sign=)] *)
  String_decode : list byte -> UnitSize -> Endianness -> Sign -> outcome pyval;
  (** [StringPaddedGenerator.DEFAULT_NAUGHTY_STRINGS], a list of [str] *)
  DEFAULT_NAUGHTY_STRINGS : list string
}.

Module StringMutator.

Definition DEFAULT_MIN_LENGTH : Z := 2.
Definition DEFAULT_MAX_LENGTH : Z := 10.
Definition NG_determinist : string := "determinist"%string.

(** The natural number [n] rounded to 53 significant bits, ties to even:
    the integer that the nearest binary64 float holds. *)
Definition round53 (n : Z) : Z :=
  let bit_length := Z.log2 n + 1 in
  if bit_length <=? 53 then n
  else
    let sh := bit_length - 53 in
    let q := Z.shiftr n sh in
    let rem := n mod 2 ^ sh in
    let half := 2 ^ (sh - 1) in
    let q' := if (half <? rem) || ((rem =? half) && Z.odd q) then q + 1 else q in
    Z.shiftl q' sh.

(** [int(x / 8)]: true division of integers, correctly rounded to a binary64
    float (a division by 8 only changes the exponent, so the rounding is that
    of [x] itself), then truncation towards zero.  A quotient of [2^1024] or
    more does not fit a float: [OverflowError]. *)
Definition int_truediv8 {S} (x : Z) : method S Z :=
  let r := round53 (Z.abs x) in
  if 2 ^ 1027 <=? r then raise OverflowError
  else ret (Z.sgn x * (r / 8)).

(** The integers that a float holds exactly, whatever their low bits. *)
Definition float_exact (x : Z) : Prop := Z.abs x < 2 ^ 53.

(** [max(a, b)] and [min(a, b)] where [a] may be [None]: comparing an
    integer with [None] raises [TypeError]. *)
Definition py_max {S} (a : option Z) (b : Z) : method S Z :=
  match a with
  | Some x => ret (Z.max x b)
  | None => raise TypeError
  end.

Definition py_min {S} (a : option Z) (b : Z) : method S Z :=
  match a with
  | Some x => ret (Z.min x b)
  | None => raise TypeError
  end.

(** The first part of [initializeGenerator] (from [minLength = None] to
    the defaults): the bounds handed to the length generator. *)
Definition lengthBounds {S} (interval dom_size : pyval) : method S (Z * Z) :=
  (let minLength := option_map fst (int_pair interval) in
   let maxLength := option_map snd (int_pair interval) in
   bounds <- match int_pair dom_size with
             | Some (d0, d1) =>
                 lo <- int_truediv8 d0 ;;
                 mn <- py_max minLength lo ;;
                 hi <- int_truediv8 d1 ;;
                 mx <- py_min maxLength hi ;;
                 ret (Some mn, Some mx)
             | None => ret (minLength, maxLength)
             end ;;
   match bounds with
   | (Some mn, Some mx) => ret (mn, mx)
   | _ => ret (DEFAULT_MIN_LENGTH, DEFAULT_MAX_LENGTH)
   end)%method.

Section WithCollaborators.
Context `{Collaborators}.

(** A StringMutator: the attributes of the base Mutator, the domain's
    declared type, the dictionary and the current generator object. *)
Record t : Type := mk {
  base : Mutator.t;
  domain_dataType : dataType;
  _naughtyStrings : pyval;
  generator : Generator
}.

Definition set_base (b : Mutator.t) (self : t) : t :=
  {| base := b;
     domain_dataType := domain_dataType self;
     _naughtyStrings := _naughtyStrings self;
     generator := generator self |}.

Definition set_naughtyStrings (v : pyval) (self : t) : t :=
  {| base := base self;
     domain_dataType := domain_dataType self;
     _naughtyStrings := v;
     generator := generator self |}.

Definition set_generator (g : Generator) (self : t) : t :=
  {| base := base self;
     domain_dataType := domain_dataType self;
     _naughtyStrings := _naughtyStrings self;
     generator := g |}.

(** A call of a method inherited from Mutator ([super().generate()]). *)
Definition super {A} (c : method Mutator.t A) : method t A :=
  fun self => let (r, b) := c (base self) in (r, set_base b self).

(** A call of a collaborator that does not touch the mutator. *)
Definition call {A} (r : outcome A) : method t A := fun self => (r, self).

(** The [naughtyStrings] setter. *)
Definition naughtyStrings_setter (naughtyStrings : pyval) : method t unit :=
  fun self =>
    if negb (isinstance_list naughtyStrings)
    then (Return tt,
          set_naughtyStrings (PyList (map PyStr DEFAULT_NAUGHTY_STRINGS)) self)
    else (Return tt, set_naughtyStrings naughtyStrings self).

(** [lengthBitSize] is a [UnitSize] member or a plain integer. *)
Definition lengthBitSize_value (lengthBitSize : UnitSize + Z) : Z :=
  match lengthBitSize with
  | inl u => UnitSize_value u
  | inr z => z
  end.

(** [def initializeGenerator(self, interval, lengthBitSize, endchar)].
    [self.seed] and [self.domain] are attributes that the parent's
    constructor (DomainMutator, not among the sources) sets up; [self.seed]
    is read as the [_seed] of the base Mutator. *)
Definition initializeGenerator (interval : pyval)
    (lengthBitSize : UnitSize + Z) (endchar : string) : method t unit :=
  (self <- get ;;
   bounds <- lengthBounds interval (size (domain_dataType self)) ;;
   let lengthBitSize := lengthBitSize_value lengthBitSize in
   lengthGenerator <- call (buildGenerator NG_determinist
                              (Mutator._seed (base self))
                              (fst bounds) (snd bounds)
                              lengthBitSize false) ;;
   g <- call (StringPaddedGenerator lengthGenerator
                (_naughtyStrings self) endchar) ;;
   put (set_generator g self))%method.

(** The body of [__init__] after the parent's [__init__] has run. *)
Definition init_body (naughtyStrings interval : pyval)
    (lengthBitSize : UnitSize + Z) (endchar : string) : method t unit :=
  (_ <- naughtyStrings_setter naughtyStrings ;;
   initializeGenerator interval lengthBitSize endchar)%method.

(** [value = next(self.generator)] *)
Definition next_value : method t (list byte) :=
  fun self => let (r, g) := next (generator self) in (r, set_generator g self).

(** [def generate(self)] *)
Definition generate : method t pyval :=
  (_ <- super Mutator.generate ;;
   value <- next_value ;;
   self <- get ;;
   call (String_decode value
           (unitSize (domain_dataType self))
           (endianness (domain_dataType self))
           (sign (domain_dataType self))))%method.

(** [def mutate(self, data): raise NotImplementedError] *)
Definition mutate (data : pyval) : method t pyval :=
  raise NotImplementedError.

(** [for _ in range(n): self.generate()] *)
Fixpoint generate_times (n : nat) : method t unit :=
  match n with
  | O => ret tt
  | S n' => (_ <- generate ;; generate_times n')%method
  end.

End WithCollaborators.

End StringMutator.


(** ** Bit buffers

    The relation receives and returns a [bitarray] (the bitarray package): a
    sequence of bits carrying the bit order of its bytes.  With order [big]
    the first bit of each group of eight is the most significant one, with
    [little] the least significant one. *)

Record bitarray : Type := mkBitarray {
  endian : Endianness;
  bits : list bool
}.

(** The eight bits of a byte, least significant first. *)
Definition byte_bits_lsb (b : byte) : list bool :=
  let '(b0, (b1, (b2, (b3, (b4, (b5, (b6, b7))))))) := Byte.to_bits b in
  [b0; b1; b2; b3; b4; b5; b6; b7].

Definition byte_bits (e : Endianness) (b : byte) : list bool :=
  match e with
  | LITTLE => byte_bits_lsb b
  | BIG => rev (byte_bits_lsb b)
  end.

(** The byte of a group of at most eight bits; the bits that a short last
    group lacks are zero. *)
Definition byte_of_bits (e : Endianness) (l : list bool) : byte :=
  let n i := nth i l false in
  match e with
  | LITTLE => Byte.of_bits (n 0, (n 1, (n 2, (n 3, (n 4, (n 5, (n 6, n 7)))))))%nat
  | BIG => Byte.of_bits (n 7, (n 6, (n 5, (n 4, (n 3, (n 2, (n 1, n 0)))))))%nat
  end.

(** [bitarray.frombytes] on an empty buffer of bit order [e]. *)
Definition frombytes (e : Endianness) (bs : list byte) : list bool :=
  flat_map (byte_bits e) bs.

(** Eight bits at a time into bytes, the last group padded with zeros. *)
Fixpoint pack (e : Endianness) (l : list bool) : list byte :=
  match l with
  | [] => []
  | b0 :: b1 :: b2 :: b3 :: b4 :: b5 :: b6 :: b7 :: rest =>
      byte_of_bits e [b0; b1; b2; b3; b4; b5; b6; b7] :: pack e rest
  | short => [byte_of_bits e short]
  end.

(** [bitarray.tobytes] *)
Definition tobytes (a : bitarray) : list byte := pack (endian a) (bits a).

(** ** TypeConverter *)

Module TypeConverter.

(** Modelled from the spec: [TypeConverter.convert(data, Raw, BitArray, ...)]
    lives in netzob.Model.Vocabulary.Types, which is not among the sources.
    The spec has it translate raw bytes into a bit-addressable buffer under
    the destination's declared parameters: the bits of each byte are laid out
    in the order of [dst_endianness]; the unit size and the signs are carried
    and do not change the bits of a byte string. *)
Definition convert_Raw_BitArray (data : list byte)
    (src_endianness dst_endianness : Endianness)
    (src_unitSize dst_unitSize : UnitSize) (src_sign : Sign) : bitarray :=
  {| endian := dst_endianness; bits := frombytes dst_endianness data |}.

(** Modelled from the spec: the decoding direction of the same codec
    ([TypeConverter.convert(data, BitArray, Raw, ...)], not among the
    sources): the bits are read back in groups of eight in the order named by
    the declared endianness, whatever order the buffer itself records. *)
Definition convert_BitArray_Raw (data : bitarray)
    (endianness : Endianness) (unitSize : UnitSize) (sign : Sign) : list byte :=
  pack endianness (bits data).

End TypeConverter.

(** ** hashlib's sha512 (FIPS 180-4) *)

Module SHA512.

Definition mask64 : Z := 2 ^ 64 - 1.
Definition add64 (x y : Z) : Z := (x + y) mod 2 ^ 64.
Definition ROTR (n x : Z) : Z :=
  Z.lor (Z.shiftr x n) (Z.land (Z.shiftl x (64 - n)) mask64).
Definition SHR (n x : Z) : Z := Z.shiftr x n.

Definition Ch (x y z : Z) : Z :=
  Z.lxor (Z.land x y) (Z.land (Z.lxor x mask64) z).
Definition Maj (x y z : Z) : Z :=
  Z.lxor (Z.lxor (Z.land x y) (Z.land x z)) (Z.land y z).
Definition Sigma0 (x : Z) : Z := Z.lxor (Z.lxor (ROTR 28 x) (ROTR 34 x)) (ROTR 39 x).
Definition Sigma1 (x : Z) : Z := Z.lxor (Z.lxor (ROTR 14 x) (ROTR 18 x)) (ROTR 41 x).
Definition sigma0 (x : Z) : Z := Z.lxor (Z.lxor (ROTR 1 x) (ROTR 8 x)) (SHR 7 x).
Definition sigma1 (x : Z) : Z := Z.lxor (Z.lxor (ROTR 19 x) (ROTR 61 x)) (SHR 6 x).

(** The eighty round constants. *)
Definition K : list Z :=
  [
   0x428a2f98d728ae22; 0x7137449123ef65cd; 0xb5c0fbcfec4d3b2f; 0xe9b5dba58189dbbc;
   0x3956c25bf348b538; 0x59f111f1b605d019; 0x923f82a4af194f9b; 0xab1c5ed5da6d8118;
   0xd807aa98a3030242; 0x12835b0145706fbe; 0x243185be4ee4b28c; 0x550c7dc3d5ffb4e2;
   0x72be5d74f27b896f; 0x80deb1fe3b1696b1; 0x9bdc06a725c71235; 0xc19bf174cf692694;
   0xe49b69c19ef14ad2; 0xefbe4786384f25e3; 0x0fc19dc68b8cd5b5; 0x240ca1cc77ac9c65;
   0x2de92c6f592b0275; 0x4a7484aa6ea6e483; 0x5cb0a9dcbd41fbd4; 0x76f988da831153b5;
   0x983e5152ee66dfab; 0xa831c66d2db43210; 0xb00327c898fb213f; 0xbf597fc7beef0ee4;
   0xc6e00bf33da88fc2; 0xd5a79147930aa725; 0x06ca6351e003826f; 0x142929670a0e6e70;
   0x27b70a8546d22ffc; 0x2e1b21385c26c926; 0x4d2c6dfc5ac42aed; 0x53380d139d95b3df;
   0x650a73548baf63de; 0x766a0abb3c77b2a8; 0x81c2c92e47edaee6; 0x92722c851482353b;
   0xa2bfe8a14cf10364; 0xa81a664bbc423001; 0xc24b8b70d0f89791; 0xc76c51a30654be30;
   0xd192e819d6ef5218; 0xd69906245565a910; 0xf40e35855771202a; 0x106aa07032bbd1b8;
   0x19a4c116b8d2d0c8; 0x1e376c085141ab53; 0x2748774cdf8eeb99; 0x34b0bcb5e19b48a8;
   0x391c0cb3c5c95a63; 0x4ed8aa4ae3418acb; 0x5b9cca4f7763e373; 0x682e6ff3d6b2b8a3;
   0x748f82ee5defb2fc; 0x78a5636f43172f60; 0x84c87814a1f0ab72; 0x8cc702081a6439ec;
   0x90befffa23631e28; 0xa4506cebde82bde9; 0xbef9a3f7b2c67915; 0xc67178f2e372532b;
   0xca273eceea26619c; 0xd186b8c721c0c207; 0xeada7dd6cde0eb1e; 0xf57d4f7fee6ed178;
   0x06f067aa72176fba; 0x0a637dc5a2c898a6; 0x113f9804bef90dae; 0x1b710b35131c471b;
   0x28db77f523047d84; 0x32caab7b40c72493; 0x3c9ebe0a15c9bebc; 0x431d67c49c100d4c;
   0x4cc5d4becb3e42b6; 0x597f299cfc657e2a; 0x5fcb6fab3ad6faec; 0x6c44198c4a475817
  ].

(** The eight working variables, also the chaining value. *)
Record state : Type := mkState {
  va : Z; vb : Z; vc : Z; vd : Z; ve : Z; vf : Z; vg : Z; vh : Z
}.

(** The initial hash value. *)
Definition H0 : state :=
  {| va := 0x6a09e667f3bcc908; vb := 0xbb67ae8584caa73b;
     vc := 0x3c6ef372fe94f82b; vd := 0xa54ff53a5f1d36f1;
     ve := 0x510e527fade682d1; vf := 0x9b05688c2b3e6c1f;
     vg := 0x1f83d9abfb41bd6b; vh := 0x5be0cd19137e2179 |}.

Definition Z_of_byte (b : byte) : Z := Z.of_N (Byte.to_N b).

Definition byte_of_Z (z : Z) : byte :=
  match Byte.of_N (Z.to_N (z mod 256)) with
  | Some b => b
  | None => x00
  end.

(** Big-endian integer of a byte string, and the [n] low bytes of an
    integer, most significant first. *)
Definition be_to_Z (bs : list byte) : Z :=
  fold_left (fun acc b => acc * 256 + Z_of_byte b) bs 0.

Fixpoint Z_to_be (n : nat) (z : Z) : list byte :=
  match n with
  | O => []
  | S n' => Z_to_be n' (z / 256) ++ [byte_of_Z z]
  end.

(** Padding: the bit 1, zeros up to 112 modulo 128 bytes, then the length in
    bits on 128 bits. *)
Definition pad (msg : list byte) : list byte :=
  let l := List.length msg in
  let k := ((128 - (l + 17) mod 128) mod 128)%nat in
  msg ++ [x80] ++ repeat x00 k ++ Z_to_be 16 (8 * Z.of_nat l).

(** [n] chunks of [size] elements. *)
Fixpoint chunks {A} (size n : nat) (l : list A) : list (list A) :=
  match n with
  | O => []
  | S n' => firstn size l :: chunks size n' (skipn size l)
  end.

(** The sixteen words of a block of 128 bytes. *)
Definition block_words (block : list byte) : list Z :=
  map be_to_Z (chunks 8 16 block).

(** The message schedule, built most recent word first. *)
Fixpoint extend (n : nat) (W : list Z) : list Z :=
  match n with
  | O => W
  | S n' =>
      let w := add64 (add64 (add64 (sigma1 (nth 1 W 0)) (nth 6 W 0))
                            (sigma0 (nth 14 W 0))) (nth 15 W 0) in
      extend n' (w :: W)
  end.

Definition schedule (block : list byte) : list Z :=
  rev (extend 64 (rev (block_words block))).

Definition round (s : state) (kw : Z * Z) : state :=
  let T1 := add64 (add64 (add64 (add64 (vh s) (Sigma1 (ve s)))
                                (Ch (ve s) (vf s) (vg s))) (fst kw)) (snd kw) in
  let T2 := add64 (Sigma0 (va s)) (Maj (va s) (vb s) (vc s)) in
  {| va := add64 T1 T2; vb := va s; vc := vb s; vd := vc s;
     ve := add64 (vd s) T1; vf := ve s; vg := vf s; vh := vg s |}.

Definition compress (H : state) (block : list byte) : state :=
  let s := fold_left round (combine K (schedule block)) H in
  {| va := add64 (va H) (va s); vb := add64 (vb H) (vb s);
     vc := add64 (vc H) (vc s); vd := add64 (vd H) (vd s);
     ve := add64 (ve H) (ve s); vf := add64 (vf H) (vf s);
     vg := add64 (vg H) (vg s); vh := add64 (vh H) (vh s) |}.

Definition output (H : state) : list byte :=
  Z_to_be 8 (va H) ++ Z_to_be 8 (vb H) ++ Z_to_be 8 (vc H) ++ Z_to_be 8 (vd H) ++
  Z_to_be 8 (ve H) ++ Z_to_be 8 (vf H) ++ Z_to_be 8 (vg H) ++ Z_to_be 8 (vh H).

(** [m = hashlib.new("sha512"); m.update(msg); m.digest()] *)
Definition digest (msg : list byte) : list byte :=
  let padded := pad msg in
  output (fold_left compress
            (chunks 128 (Nat.div (List.length padded) 128) padded) H0).

End SHA512.

(** ** SHA2_512.py *)

Module SHA2_512.

(** [def relationOperation(self, msg)], with [self.dataType] as argument. *)
Definition relationOperation (self_dataType : dataType) (msg : bitarray)
  : bitarray :=
  let msg := tobytes msg in
  let result := SHA512.digest msg in
  TypeConverter.convert_Raw_BitArray result
    LITTLE (endianness self_dataType)
    (unitSize self_dataType) (unitSize self_dataType)
    UNSIGNED.

End SHA2_512.


(** ** Concrete objects used to run the definitions *)

(** A stand-in for the collaborators: the generator object is a counter,
    [next] hands out one byte and advances it. *)
Definition counting_collaborators : Collaborators :=
  {| Generator := nat;
     buildGenerator := fun _ _ _ _ _ _ => Return O;
     StringPaddedGenerator := fun g _ _ => Return g;
     next := fun g => (Return [x41], S g);
     String_decode := fun v _ _ _ => Return (PyBytes v);
     DEFAULT_NAUGHTY_STRINGS := [""%string; "undefined"%string] |}.

(** [String(nbChars=(35, 60))] on 8-bit units: between 280 and 480 bits. *)
Definition string_35_60 : dataType :=
  {| size := PyTuple [PyInt 280; PyInt 480];
     unitSize := SIZE_8; endianness := BIG; sign := UNSIGNED |}.

(** A StringMutator over [string_35_60] with a budget of [counterMax]. *)
Definition sample_mutator (counterMax counter : Z)
  : @StringMutator.t counting_collaborators :=
  @StringMutator.mk counting_collaborators
    (Mutator.set_currentCounter counter (Mutator.init (PyInt 10) counterMax))
    string_35_60 (PyList []) O.

(** The field content [b'\xaa\xbb'] as a bit buffer of bit order [e]. *)
Definition aabb (e : Endianness) : bitarray :=
  {| endian := e; bits := frombytes e [xaa; xbb] |}.

(** [hashlib.sha512(b'\xaa\xbb').digest()] *)
Definition sha512_aabb : list byte :=
  [x13; x86; x8e; x66; xe1; x0c; x88; x25; xbe; x20; x54; xb8; xfa; x56; xfa; xf0;
   x69; x38; xa2; xc6; xa7; xe8; xe3; x83; x0f; x0c; x27; x47; x77; xb0; x43; x1f;
   x19; x5e; x00; x1e; x68; x0b; x85; xc5; x16; x16; xc3; x75; x8e; x86; xad; x3f;
   xfe; xe8; x81; x60; x61; xb1; xa2; x6f; xb0; x0c; x5a; x3c; x88; x27; xf2; x6f].

(** ** Mutator.py: the validated setters, and sessions of calls *)

Module MutatorSession.

Definition set_counterMax (c : Z) (m : Mutator.t) : Mutator.t :=
  {| Mutator._seed := Mutator._seed m;
     Mutator._currentState := Mutator._currentState m;
     Mutator._counterMax := c;
     Mutator._currentCounter := Mutator._currentCounter m |}.

Definition set_currentState (c : Z) (m : Mutator.t) : Mutator.t :=
  {| Mutator._seed := Mutator._seed m;
     Mutator._currentState := c;
     Mutator._counterMax := Mutator._counterMax m;
     Mutator._currentCounter := Mutator._currentCounter m |}.

Section TypeCheck.
(** The decorator [typeCheck(int)], as for [updateSeed]. *)
Variable typeCheck_int : pyval -> bool.

(** [@counterMax.setter @typeCheck(int) def counterMax(self, counterMaxValue)],
    called with an integer. *)
Definition counterMax_setter (counterMaxValue : Z) : method Mutator.t unit :=
  fun self =>
    if typeCheck_int (PyInt counterMaxValue)
    then (Return tt, set_counterMax counterMaxValue self)
    else (Raise TypeError, self).

(** [@currentState.setter @typeCheck(int) def currentState(self, stateValue)],
    called with an integer. *)
Definition currentState_setter (stateValue : Z) : method Mutator.t unit :=
  fun self =>
    if typeCheck_int (PyInt stateValue)
    then (Return tt, set_currentState stateValue self)
    else (Raise TypeError, self).

(** The calls that a user of a Mutator can make. *)
Inductive call : Type :=
| Generate
| Reset
| ResetCurrentCounter
| UpdateSeed (seedValue : pyval)
| SetCounterMax (counterMaxValue : Z)
| SetCurrentState (stateValue : Z).

Definition perform (c : call) : method Mutator.t unit :=
  match c with
  | Generate => (_ <- Mutator.generate ;; ret tt)%method
  | Reset => Mutator.reset
  | ResetCurrentCounter => Mutator.resetCurrentCounter
  | UpdateSeed v => Mutator.updateSeed typeCheck_int v
  | SetCounterMax z => counterMax_setter z
  | SetCurrentState z => currentState_setter z
  end.

(** A caller that makes the calls one after the other and goes on after an
    exception: the object at the end. *)
Fixpoint session (cs : list call) (m : Mutator.t) : Mutator.t :=
  match cs with
  | [] => m
  | c :: cs' => session cs' (snd (perform c m))
  end.

End TypeCheck.

(** A call that is not an assignment of [counterMax]. *)
Definition keeps_counterMax (c : call) : bool :=
  match c with SetCounterMax _ => false | _ => true end.

End MutatorSession.

(** ** TypeIdentifier.py *)

(** What the Python 2 runtime and its library contribute to
    [TypeIdentifier]: the parts of them whose behaviour the source does not
    fix. *)
Class Python2 : Type := {
  (** [int(chunk, 16)] on a chunk that is not made of one or two hexadecimal
      digits (a sign, blanks, a prefix): the integer, or [None] for
      [ValueError] *)
  int16_other : string -> option Z;
  (** the order in which [for i in setSpace] visits the set built by adding
      the given integers one after the other *)
  set_iter : list Z -> list Z;
  (** the C library's [isalpha] under the current locale, which [str.isalpha]
      and [str.isalnum] consult for each character *)
  locale_isalpha : Ascii.ascii -> bool;
  (** [base64.b64decode(s)]: the decoded string, or [None] for [TypeError] *)
  b64decode : string -> option string
}.

Module TypeIdentifier.

(** Outcome of [getType]: the string returned, or the [ValueError] that
    [int()] or [chr()] raised. *)
Inductive result (A : Type) : Type :=
| Ok (a : A)
| ValueError.
Arguments Ok {A} a.
Arguments ValueError {A}.

Definition code (c : Ascii.ascii) : Z := Z.of_N (Ascii.N_of_ascii c).

(** The value of a hexadecimal digit, in either case. *)
Definition hexval (c : Ascii.ascii) : option Z :=
  let n := code c in
  if (48 <=? n) && (n <=? 57) then Some (n - 48)
  else if (97 <=? n) && (n <=? 102) then Some (n - 87)
  else if (65 <=? n) && (n <=? 70) then Some (n - 55)
  else None.

(** [entireString[i:i + 2]] for [i] in [range(0, len(entireString), 2)]:
    the string cut in pairs, a last lone character making a chunk of its
    own. *)
Fixpoint chunks2 (s : string) : list string :=
  match s with
  | EmptyString => []
  | String a EmptyString => [String a EmptyString]
  | String a (String b rest) => String a (String b EmptyString) :: chunks2 rest
  end.

(** [isdigit] of the C library (the ten decimal digits, whatever the locale)
    and membership in ASCII, for one character. *)
Definition isdigit_char (c : Ascii.ascii) : bool :=
  (48 <=? code c) && (code c <=? 57).

Definition isascii_char (c : Ascii.ascii) : bool := code c <? 128.

(** A test of [str] that holds when the string is not empty and each of its
    characters passes ([isdigit], [isalpha], [isalnum]). *)
Definition str_all (p : Ascii.ascii -> bool) (s : string) : bool :=
  match s with
  | EmptyString => false
  | _ => forallb p (list_ascii_of_string s)
  end.

(** [chr(i)]: [ValueError] outside [range(256)]. *)
Definition chr (i : Z) : option Ascii.ascii :=
  if (0 <=? i) && (i <? 256) then Some (Ascii.ascii_of_N (Z.to_N i)) else None.

Section WithPython2.
Context `{Python2}.

(** [int(chunk, 16)] *)
Definition int16 (chunk : string) : option Z :=
  match chunk with
  | String a EmptyString =>
      match hexval a with
      | Some x => Some x
      | None => int16_other chunk
      end
  | String a (String b EmptyString) =>
      match hexval a, hexval b with
      | Some x, Some y => Some (16 * x + y)
      | _, _ => int16_other chunk
      end
  | _ => int16_other chunk
  end.

(** The first loop: the integers added to [setSpace], in the order of the
    chunks; [None] when [int()] raises. *)
Fixpoint parse (chunks : list string) : option (list Z) :=
  match chunks with
  | [] => Some []
  | chunk :: rest =>
      match int16 chunk with
      | None => None
      | Some v =>
          match parse rest with
          | None => None
          | Some vs => Some (v :: vs)
          end
      end
  end.

(** The second loop: [aggregatedValues += chr(i)] for [i] in the set;
    [None] when [chr()] raises. *)
Fixpoint aggregate (values : list Z) : option string :=
  match values with
  | [] => Some EmptyString
  | i :: rest =>
      match chr i with
      | None => None
      | Some c =>
          match aggregate rest with
          | None => None
          | Some s => Some (String c s)
          end
      end
  end.

(** [isalnum] of the C library: [isalpha] or [isdigit]. *)
Definition isalnum_char (c : Ascii.ascii) : bool :=
  locale_isalpha c || isdigit_char c.

(** [def isAscii(self, string)]: [string.decode('ascii')] succeeds when no
    byte is above 127. *)
Definition isAscii (s : string) : bool :=
  forallb isascii_char (list_ascii_of_string s).

(** [def isBase64(self, stringsTable)]: the loop, entered with [res]; a
    [TypeError] leaves it with [False]. *)
Fixpoint isBase64_loop (res : bool) (stringsTable : list string) : bool :=
  match stringsTable with
  | [] => res
  | s :: rest =>
      match b64decode s with
      | None => false
      | Some tmp =>
          isBase64_loop (if String.eqb tmp EmptyString then false else res) rest
      end
  end.

Definition isBase64 (stringsTable : list string) : bool :=
  isBase64_loop true stringsTable.

(** [typesList += tag] when the test holds. *)
Definition tag (test : bool) (name : string) (typesList : string) : string :=
  if test then (typesList ++ name)%string else typesList.

(** [def getType(self, stringsTable)].  The result of [sorted(setSpace)] is
    dropped by the source and the set is visited in its own order. *)
Definition getType (stringsTable : list string) : result string :=
  let entireString := String.concat EmptyString stringsTable in
  match parse (chunks2 entireString) with
  | None => ValueError
  | Some setSpace =>
      match aggregate (set_iter setSpace) with
      | None => ValueError
      | Some aggregatedValues =>
          if String.eqb aggregatedValues EmptyString then Ok EmptyString
          else
            let typesList := EmptyString in
            let typesList :=
              tag (str_all isdigit_char aggregatedValues) "num," typesList in
            let typesList :=
              tag (str_all locale_isalpha aggregatedValues) "alpha," typesList in
            let typesList :=
              tag (str_all isalnum_char aggregatedValues) "alphanum," typesList in
            let typesList := tag (isAscii aggregatedValues) "ascii," typesList in
            let typesList := tag (isBase64 stringsTable) "base64," typesList in
            Ok (typesList ++ "binary")%string
      end
  end.

End WithPython2.

(** The iteration orders of a set: each element once, no other element. *)
Definition set_order (iter : list Z -> list Z) : Prop :=
  forall l, NoDup (iter l) /\ (forall x, In x (iter l) <-> In x l).

(** A string of hexadecimal digits. *)
Definition is_hex (s : string) : bool :=
  forallb (fun c => match hexval c with Some _ => true | None => false end)
    (list_ascii_of_string s).

End TypeIdentifier.

(** A stand-in for the Python 2 side, to run [getType]: every other chunk is
    refused, the set is visited in the order of first insertion, the locale
    is the C locale and the base64 decoder is replaced by one that accepts
    the strings whose length is a multiple of four and gives them back. *)
Definition c_locale_isalpha (c : Ascii.ascii) : bool :=
  ((65 <=? TypeIdentifier.code c) && (TypeIdentifier.code c <=? 90))
  || ((97 <=? TypeIdentifier.code c) && (TypeIdentifier.code c <=? 122)).

Definition sample_python2 : Python2 :=
  {| int16_other := fun _ => None;
     set_iter := nodup Z.eq_dec;
     locale_isalpha := c_locale_isalpha;
     b64decode := fun s =>
       if Nat.eqb (String.length s mod 4) 0 then Some s else None |}.

(** ** MMSTDXmlParser.py *)

Module MMSTDXmlParser.

(** An element of [xml.etree.ElementTree]: its tag, its attributes, its text
    ([None] when it has none) and its children in document order. *)
#[warnings="-register-all"]
Inductive Element : Type :=
| mkElement (tag : string) (attrib : list (string * string))
    (text : option string) (children : list Element).

Definition tag (e : Element) : string :=
  match e with mkElement t _ _ _ => t end.
Definition attrib (e : Element) : list (string * string) :=
  match e with mkElement _ a _ _ => a end.
Definition text (e : Element) : option string :=
  match e with mkElement _ _ t _ => t end.
Definition children (e : Element) : list Element :=
  match e with mkElement _ _ _ c => c end.

Fixpoint lookup (key : string) (l : list (string * string)) : option string :=
  match l with
  | [] => None
  | (k, v) :: rest => if String.eqb k key then Some v else lookup key rest
  end.

(** [element.get(key, default)] *)
Definition get (e : Element) (key default : string) : string :=
  match lookup key (attrib e) with
  | Some v => v
  | None => default
  end.

(** [element.findall(name)]: the children of that tag, in document order. *)
Definition findall (e : Element) (name : string) : list Element :=
  filter (fun c => String.eqb (tag c) name) (children e).

(** [element.find(name)]: the first of them, or [None]. *)
Definition find (e : Element) (name : string) : option Element :=
  match findall e name with
  | [] => None
  | c :: _ => Some c
  end.

(** The exceptions that [loadFromXML] lets out; [Other] stands for those of
    the collaborators (reading the dictionary file, looking up an entry). *)
Inductive exn : Type :=
| NameError (msg : string)
| AttributeError
| TypeError
| ValueError
| Other (name : string).

Inductive res (A : Type) : Type :=
| Done (a : A)
| Fail (e : exn).
Arguments Done {A} a.
Arguments Fail {A} e.

Definition and_then {A B} (r : res A) (k : A -> res B) : res B :=
  match r with
  | Done a => k a
  | Fail e => Fail e
  end.

Declare Scope res_scope.
Delimit Scope res_scope with res.
Notation "x <- c ;; k" := (and_then c (fun x => k))
  (at level 61, c at next level, right associativity) : res_scope.

(** What [loadFromXML] relies on and the sources do not contain: the
    conversions [int()] and [float()] of strings ([None] for [ValueError]),
    the reading of the dictionary file (parsing it and
    [DictionaryXmlParser.loadFromXML]) and [dictionary.getEntry]. *)
Class Environment : Type := {
  Dictionary : Type;
  DictionaryEntry : Type;
  PyFloat : Type;
  py_int : string -> option Z;
  py_float : string -> option PyFloat;
  load_dictionary : string -> res Dictionary;
  getEntry : Dictionary -> Z -> res DictionaryEntry
}.

Section WithEnvironment.
Context `{Environment}.

(** The objects that [loadFromXML] creates, written as the arguments that
    their constructors receive and the calls made on them afterwards (the
    classes themselves are not among the sources).  A state is referred to
    by its position in the list [states], which is its identity: two states
    may carry the same identifier. *)

(** [transition.addOutputSymbol(outputSymbol, outputProbability, outputTime)] *)
Record Output : Type := mkOutput {
  outputSymbol : DictionaryEntry;
  outputProbability : PyFloat;
  outputTime : Z
}.

(** [SemiStochasticTransition(idTransition, nameTransition,
    inputStateTransition, outputStateTransition, inputSymbol)] and the
    outputs added to it. *)
Record Transition : Type := mkTransition {
  idTransition : Z;
  nameTransition : string;
  inputStateTransition : option nat;
  outputStateTransition : option nat;
  inputSymbol : DictionaryEntry;
  outputs : list Output
}.

(** [NormalState(idState, nameState)] and the transitions registered on it;
    [getID()] gives [idState]. *)
Record State : Type := mkState {
  idState : Z;
  nameState : string;
  transitions : list Transition
}.

(** [MMSTD(initialState, dictionary)], with the states that were created. *)
Record MMSTD : Type := mkMMSTD {
  initialState : option nat;
  states : list State;
  dictionary : Dictionary
}.

(** [int(element.get(key, default))] *)
Definition int_attr (e : Element) (key default : string) : res Z :=
  match py_int (get e key default) with
  | Some z => Done z
  | None => Fail ValueError
  end.

(** [int(element.text)]: [int(None)] is a [TypeError]. *)
Definition int_text (e : Element) : res Z :=
  match text e with
  | None => Fail TypeError
  | Some s =>
      match py_int s with
      | Some z => Done z
      | None => Fail ValueError
      end
  end.

(** [float(element.get(key, default))] *)
Definition float_attr (e : Element) (key default : string) : res PyFloat :=
  match py_float (get e key default) with
  | Some x => Done x
  | None => Fail ValueError
  end.

(** The loop over [rootElement.findall("state")]. *)
Fixpoint parse_states (xmlStates : list Element) (states : list State)
    (initialState : option nat) : res (list State * option nat) :=
  match xmlStates with
  | [] => Done (states, initialState)
  | xmlState :: rest =>
      (idState <- int_attr xmlState "id" "-1" ;;
       let nameState := get xmlState "name" "none" in
       let state := mkState idState nameState [] in
       parse_states rest (states ++ [state])
         (if idState =? 0 then Some (List.length states) else initialState))%res
  end.

(** The loop [for state in states] that searches the start and the end state
    of a transition; [index] is the position of the head of [states]. *)
Fixpoint search (states : list State) (index : nat)
    (idStartTransition idEndTransition : Z)
    (inputStateTransition outputStateTransition : option nat)
  : option nat * option nat :=
  match states with
  | [] => (inputStateTransition, outputStateTransition)
  | state :: rest =>
      search rest (S index) idStartTransition idEndTransition
        (if idState state =? idStartTransition then Some index
         else inputStateTransition)
        (if idState state =? idEndTransition then Some index
         else outputStateTransition)
  end.

(** The loop over [xmlTransition.findall("output")]. *)
Fixpoint parse_outputs (dictionary : Dictionary) (xmlOutputs : list Element)
    (outputs : list Output) : res (list Output) :=
  match xmlOutputs with
  | [] => Done outputs
  | xmlOutput :: rest =>
      (outputId <- int_text xmlOutput ;;
       outputTime <- int_attr xmlOutput "time" "0" ;;
       outputProbability <- float_attr xmlOutput "probability" "0" ;;
       outputSymbol <- getEntry dictionary outputId ;;
       parse_outputs dictionary rest
         (outputs ++ [mkOutput outputSymbol outputProbability outputTime]))%res
  end.

(** [state.registerTransition(transition)] on the state at [index]. *)
Fixpoint registerTransition (index : nat) (transition : Transition)
    (states : list State) : list State :=
  match states, index with
  | [], _ => []
  | state :: rest, O =>
      mkState (idState state) (nameState state)
        (transitions state ++ [transition]) :: rest
  | state :: rest, S index' =>
      state :: registerTransition index' transition rest
  end.

(** The body of the loop over [rootElement.findall("transition")]. *)
Definition parse_transition (dictionary : Dictionary) (states : list State)
    (xmlTransition : Element) : res (list State) :=
  (idTransition <- int_attr xmlTransition "id" "-1" ;;
   let nameTransition := get xmlTransition "name" "none" in
   idStartTransition <- int_attr xmlTransition "idStart" "-1" ;;
   idEndTransition <- int_attr xmlTransition "idEnd" "-1" ;;
   match find xmlTransition "input" with
   | None => Fail AttributeError
   | Some xmlInput =>
       inputId <- int_text xmlInput ;;
       inputSymbol <- getEntry dictionary inputId ;;
       let found := search states 0 idStartTransition idEndTransition
                      None None in
       let transition outputs :=
         mkTransition idTransition nameTransition (fst found) (snd found)
           inputSymbol outputs in
       outputs <- parse_outputs dictionary
                    (findall xmlTransition "output") [] ;;
       match fst found with
       | None => Fail AttributeError
       | Some index => Done (registerTransition index (transition outputs) states)
       end
   end)%res.

Fixpoint parse_transitions (dictionary : Dictionary)
    (xmlTransitions : list Element) (states : list State)
  : res (list State) :=
  match xmlTransitions with
  | [] => Done states
  | xmlTransition :: rest =>
      (states' <- parse_transition dictionary states xmlTransition ;;
       parse_transitions dictionary rest states')%res
  end.

(** [def loadFromXML(rootElement)] *)
Definition loadFromXML (rootElement : Element) : res MMSTD :=
  if negb (String.eqb (tag rootElement) "automata") then
    Fail (NameError "The parsed XML doesn't represent an automata.")
  else if negb (String.eqb (get rootElement "type" "none") "mmstd") then
    Fail (NameError "The parsed XML doesn't represent an MMSTD")
  else if String.eqb (get rootElement "dictionary" "none") "none" then
    Fail (NameError "The MMSTD doesn't have any dictionary declared")
  else
    let dictionaryFile := get rootElement "dictionary" "none" in
    (dictionary <- load_dictionary dictionaryFile ;;
     parsed <- parse_states (findall rootElement "state") [] None ;;
     states <- parse_transitions dictionary
                 (findall rootElement "transition") (fst parsed) ;;
     Done (mkMMSTD (snd parsed) states dictionary))%res.

End WithEnvironment.

Section Registered.
Context `{Environment}.


End Registered.


End MMSTDXmlParser.

(** A stand-in for the environment of [loadFromXML]: integers are read from
    an optional minus sign and decimal digits, a probability is kept as its
    text, the dictionary is its file name and an entry its number. *)
Fixpoint decimal_digits (s : string) (acc : Z) : option Z :=
  match s with
  | EmptyString => Some acc
  | String c rest =>
      let n := TypeIdentifier.code c in
      if (48 <=? n) && (n <=? 57) then decimal_digits rest (10 * acc + (n - 48))
      else None
  end.

Definition decimal (s : string) : option Z :=
  match s with
  | EmptyString => None
  | String c rest =>
      if TypeIdentifier.code c =? 45 then
        match rest with
        | EmptyString => None
        | _ => option_map Z.opp (decimal_digits rest 0)
        end
      else decimal_digits s 0
  end.

Definition sample_environment : MMSTDXmlParser.Environment :=
  {| MMSTDXmlParser.Dictionary := string;
     MMSTDXmlParser.DictionaryEntry := Z;
     MMSTDXmlParser.PyFloat := string;
     MMSTDXmlParser.py_int := decimal;
     MMSTDXmlParser.py_float := fun s => Some s;
     MMSTDXmlParser.load_dictionary := fun file => MMSTDXmlParser.Done file;
     MMSTDXmlParser.getEntry := fun _ z => MMSTDXmlParser.Done z |}.

(** A document with two states and one transition from state 0 to state 1,
    and the same document with the transition leaving from an unknown
    state 7, or arriving at it. *)
Definition sample_state (id name : string) : MMSTDXmlParser.Element :=
  MMSTDXmlParser.mkElement "state" [("id", id); ("name", name)]%string None [].

Definition sample_transition (idStart idEnd : string)
  : MMSTDXmlParser.Element :=
  MMSTDXmlParser.mkElement "transition"
    [("id", "1"); ("name", "t"); ("idStart", idStart); ("idEnd", idEnd)]%string
    None
    [MMSTDXmlParser.mkElement "input" [] (Some "4"%string) [];
     MMSTDXmlParser.mkElement "output"
       [("time", "10"); ("probability", "0.5")]%string (Some "5"%string) []].

Definition sample_automata (idStart idEnd : string)
  : MMSTDXmlParser.Element :=
  MMSTDXmlParser.mkElement "automata"
    [("type", "mmstd"); ("dictionary", "dico.xml")]%string None
    [sample_state "0" "start"; sample_state "1" "end";
     sample_transition idStart idEnd].

(** What [loadFromXML] makes of [sample_automata "0" idEnd] in the stand-in
    environment, [outputState] being the position of the end state. *)
Definition sample_loaded (outputState : option nat)
  : @MMSTDXmlParser.MMSTD sample_environment :=
  @MMSTDXmlParser.mkMMSTD sample_environment (Some 0%nat)
    [@MMSTDXmlParser.mkState sample_environment 0 "start"
       [@MMSTDXmlParser.mkTransition sample_environment 1 "t"
          (Some 0%nat) outputState 4
          [@MMSTDXmlParser.mkOutput sample_environment 5 "0.5"%string 10]];
     @MMSTDXmlParser.mkState sample_environment 1 "end" []]
    "dico.xml"%string.

(** * Properties *)

(** ** The generation budget of Mutator *)

Lemma set_currentCounter_same (m : Mutator.t) :
  Mutator.set_currentCounter (Mutator._currentCounter m) m = m.
Proof. destruct m; reflexivity. Qed.

Lemma set_currentCounter_twice (a b : Z) (m : Mutator.t) :
  Mutator.set_currentCounter a (Mutator.set_currentCounter b m)
  = Mutator.set_currentCounter a m.
Proof. reflexivity. Qed.

(** One call below the budget succeeds and adds one to the counter. *)
Lemma generate_below (m : Mutator.t) :
  Mutator._currentCounter m < Mutator._counterMax m ->
  Mutator.generate m
  = (Return PyNone,
     Mutator.set_currentCounter (Mutator._currentCounter m + 1) m).
Proof.
  intros Hlt. unfold Mutator.generate.
  destruct (Z.geb_spec (Mutator._currentCounter m) (Mutator._counterMax m)) as [Hge|_].
  - lia.
  - reflexivity.
Qed.

(** One call at or above the budget raises and leaves the object as it was. *)
Lemma generate_exhausted (m : Mutator.t) :
  Mutator._currentCounter m >= Mutator._counterMax m ->
  Mutator.generate m = (Raise Mutator.budget_exhausted, m).
Proof.
  intros Hge. unfold Mutator.generate.
  destruct (Z.geb_spec (Mutator._currentCounter m) (Mutator._counterMax m)) as [_|Hlt].
  - reflexivity.
  - lia.
Qed.

(** [k] calls in a row succeed as long as the budget covers them. *)
Lemma generate_times_within (k : nat) : forall (m : Mutator.t),
  Mutator._currentCounter m + Z.of_nat k <= Mutator._counterMax m ->
  Mutator.generate_times k m
  = (Return tt,
     Mutator.set_currentCounter (Mutator._currentCounter m + Z.of_nat k) m).
Proof.
  induction k as [|k IH]; intros m Hk.
  - simpl. unfold ret. rewrite Z.add_0_r, set_currentCounter_same. reflexivity.
  - cbn [Mutator.generate_times]. unfold bind.
    rewrite generate_below by lia.
    rewrite IH by (simpl; lia).
    destruct m as [sd st mx c]. unfold Mutator.set_currentCounter.
    cbn [Mutator._seed Mutator._currentState Mutator._counterMax
         Mutator._currentCounter].
    replace (c + 1 + Z.of_nat k) with (c + Z.of_nat (S k)) by lia.
    reflexivity.
Qed.

(** Once the budget is spent, any positive number of calls raises at the
    first one. *)
Lemma generate_times_exhausted (k : nat) (m : Mutator.t) :
  Mutator._currentCounter m >= Mutator._counterMax m ->
  Mutator.generate_times (S k) m = (Raise Mutator.budget_exhausted, m).
Proof.
  intros Hge. cbn [Mutator.generate_times]. unfold bind.
  rewrite generate_exhausted by assumption. reflexivity.
Qed.

(** More calls than the budget allows: the run stops with the exception at
    the call after the last one that the budget covered. *)
Lemma generate_times_beyond (k : nat) : forall (m : Mutator.t),
  Mutator._currentCounter m <= Mutator._counterMax m ->
  Mutator._counterMax m < Mutator._currentCounter m + Z.of_nat k ->
  Mutator.generate_times k m
  = (Raise Mutator.budget_exhausted,
     Mutator.set_currentCounter (Mutator._counterMax m) m).
Proof.
  induction k as [|k IH]; intros m Hle Hk.
  - simpl in Hk. lia.
  - destruct (Z.eq_dec (Mutator._currentCounter m) (Mutator._counterMax m)) as [Heq|Hne].
    + rewrite generate_times_exhausted by lia.
      rewrite <- Heq, set_currentCounter_same. reflexivity.
    + cbn [Mutator.generate_times]. unfold bind.
      rewrite generate_below by lia.
      rewrite IH by (simpl; lia).
      reflexivity.
Qed.

(** C1. A Mutator with [counterMax = N], [N >= 0], and [currentCounter = 0]:
    each of the calls 1..N of [generate()] succeeds and adds one to
    [currentCounter]; [N] calls in a row succeed; the call after them raises
    the budget exception, the check coming first (the object is left as it
    was, nothing is produced); a run of more than [N] calls stops at that
    exception, so exactly [N] calls succeed; [reset()] brings the object back
    to its first state, from which the same [N] calls succeed again and the
    next one fails again. *)
Theorem mutator_budget (m : Mutator.t) (N : Z) :
  0 <= N ->
  Mutator._counterMax m = N ->
  Mutator._currentCounter m = 0 ->
  (forall k : nat, Z.of_nat k < N ->
     Mutator.generate (Mutator.set_currentCounter (Z.of_nat k) m)
     = (Return PyNone, Mutator.set_currentCounter (Z.of_nat k + 1) m))
  /\ (forall k : nat, Z.of_nat k <= N ->
     Mutator.generate_times k m
     = (Return tt, Mutator.set_currentCounter (Z.of_nat k) m))
  /\ Mutator.generate (Mutator.set_currentCounter N m)
     = (Raise Mutator.budget_exhausted, Mutator.set_currentCounter N m)
  /\ (forall k : nat, N < Z.of_nat k ->
     Mutator.generate_times k m
     = (Raise Mutator.budget_exhausted, Mutator.set_currentCounter N m))
  /\ Mutator.reset (Mutator.set_currentCounter N m) = (Return tt, m)
  /\ (forall k : nat, Z.of_nat k <= N ->
     bind Mutator.reset (fun _ => Mutator.generate_times k)
       (Mutator.set_currentCounter N m)
     = (Return tt, Mutator.set_currentCounter (Z.of_nat k) m))
  /\ (forall k : nat, N < Z.of_nat k ->
     bind Mutator.reset (fun _ => Mutator.generate_times k)
       (Mutator.set_currentCounter N m)
     = (Raise Mutator.budget_exhausted, Mutator.set_currentCounter N m)).
Proof.
  intros HN Hmax Hcnt.
  assert (Hreset : Mutator.reset (Mutator.set_currentCounter N m) = (Return tt, m)).
  { unfold Mutator.reset. rewrite set_currentCounter_twice, <- Hcnt.
    rewrite set_currentCounter_same. reflexivity. }
  assert (Hwithin : forall k : nat, Z.of_nat k <= N ->
            Mutator.generate_times k m
            = (Return tt, Mutator.set_currentCounter (Z.of_nat k) m)).
  { intros k Hk. rewrite generate_times_within by lia.
    rewrite Hcnt. reflexivity. }
  assert (Hbeyond : forall k : nat, N < Z.of_nat k ->
            Mutator.generate_times k m
            = (Raise Mutator.budget_exhausted, Mutator.set_currentCounter N m)).
  { intros k Hk. rewrite generate_times_beyond by lia.
    rewrite Hmax. reflexivity. }
  repeat split.
  - intros k Hk. rewrite generate_below.
    + reflexivity.
    + destruct m; simpl in *; lia.
  - exact Hwithin.
  - apply generate_exhausted. destruct m; simpl in *; lia.
  - exact Hbeyond.
  - exact Hreset.
  - intros k Hk. unfold bind. rewrite Hreset. apply Hwithin, Hk.
  - intros k Hk. unfold bind. rewrite Hreset. apply Hbeyond, Hk.
Qed.

Lemma mutator_budget_witness :
  0 <= 3
  /\ Mutator._counterMax (Mutator.init (PyInt 10) 3) = 3
  /\ Mutator._currentCounter (Mutator.init (PyInt 10) 3) = 0
  /\ Mutator.generate_times 3 (Mutator.init (PyInt 10) 3)
     = (Return tt, Mutator.set_currentCounter 3 (Mutator.init (PyInt 10) 3))
  /\ Mutator.generate_times 4 (Mutator.init (PyInt 10) 3)
     = (Raise Mutator.budget_exhausted,
        Mutator.set_currentCounter 3 (Mutator.init (PyInt 10) 3)).
Proof.
  assert (H3 : 0 <= 3) by lia.
  destruct (mutator_budget (Mutator.init (PyInt 10) 3) 3 H3 eq_refl eq_refl)
    as (_ & Hwithin & _ & Hbeyond & _).
  split; [exact H3|].
  split; [reflexivity|].
  split; [reflexivity|].
  split.
  - apply (Hwithin 3%nat). simpl. lia.
  - apply (Hbeyond 4%nat). simpl. lia.
Defined.

(** C8. [reset()] and [resetCurrentCounter()] both return normally, set
    [currentCounter] to 0 and leave [seed], [currentState] and [counterMax]
    as they were. *)
Theorem reset_frame (m : Mutator.t) :
  (fst (Mutator.reset m) = Return tt
   /\ Mutator._currentCounter (snd (Mutator.reset m)) = 0
   /\ Mutator._seed (snd (Mutator.reset m)) = Mutator._seed m
   /\ Mutator._currentState (snd (Mutator.reset m)) = Mutator._currentState m
   /\ Mutator._counterMax (snd (Mutator.reset m)) = Mutator._counterMax m)
  /\ (fst (Mutator.resetCurrentCounter m) = Return tt
   /\ Mutator._currentCounter (snd (Mutator.resetCurrentCounter m)) = 0
   /\ Mutator._seed (snd (Mutator.resetCurrentCounter m)) = Mutator._seed m
   /\ Mutator._currentState (snd (Mutator.resetCurrentCounter m))
      = Mutator._currentState m
   /\ Mutator._counterMax (snd (Mutator.resetCurrentCounter m))
      = Mutator._counterMax m).
Proof. repeat split. Qed.

(** C10. [updateSeed(value)], accepted or rejected by the type check,
    changes no attribute but [seed]: [currentCounter], [currentState] and
    [counterMax] are as before, the object is the old one with at most a new
    seed, and a mutator whose budget was spent still raises on [generate()]
    after it, without any change. *)
Theorem updateSeed_frame (typeCheck_int : pyval -> bool) (v : pyval)
    (m : Mutator.t) :
  Mutator._currentCounter (snd (Mutator.updateSeed typeCheck_int v m))
  = Mutator._currentCounter m
  /\ Mutator._currentState (snd (Mutator.updateSeed typeCheck_int v m))
     = Mutator._currentState m
  /\ Mutator._counterMax (snd (Mutator.updateSeed typeCheck_int v m))
     = Mutator._counterMax m
  /\ snd (Mutator.updateSeed typeCheck_int v m)
     = Mutator.set_seed
         (Mutator._seed (snd (Mutator.updateSeed typeCheck_int v m))) m
  /\ (Mutator._currentCounter m >= Mutator._counterMax m ->
      Mutator.generate (snd (Mutator.updateSeed typeCheck_int v m))
      = (Raise Mutator.budget_exhausted,
         snd (Mutator.updateSeed typeCheck_int v m))).
Proof.
  unfold Mutator.updateSeed.
  destruct (typeCheck_int v); cbn [snd].
  - repeat split. intros Hge. apply generate_exhausted. exact Hge.
  - repeat split.
    + destruct m; reflexivity.
    + intros Hge. apply generate_exhausted. exact Hge.
Qed.

Lemma updateSeed_frame_witness :
  Mutator._currentCounter
    (Mutator.set_currentCounter 3 (Mutator.init (PyInt 10) 3))
  >= Mutator._counterMax
       (Mutator.set_currentCounter 3 (Mutator.init (PyInt 10) 3))
  /\ Mutator.generate
       (snd (Mutator.updateSeed isinstance_int (PyInt 77)
               (Mutator.set_currentCounter 3 (Mutator.init (PyInt 10) 3))))
     = (Raise Mutator.budget_exhausted,
        Mutator.mk (PyInt 77) 0 3 3).
Proof.
  assert (Hge : Mutator._currentCounter
                  (Mutator.set_currentCounter 3 (Mutator.init (PyInt 10) 3))
                >= Mutator._counterMax
                     (Mutator.set_currentCounter 3 (Mutator.init (PyInt 10) 3))).
  { simpl. lia. }
  split.
  - exact Hge.
  - exact (proj2 (proj2 (proj2 (proj2
             (updateSeed_frame isinstance_int (PyInt 77)
                (Mutator.set_currentCounter 3 (Mutator.init (PyInt 10) 3))))))
             Hge).
Defined.

(** ** StringMutator *)

Section StringMutatorProperties.
Context `{Collaborators}.

Lemma set_base_same (self : StringMutator.t) :
  StringMutator.set_base (StringMutator.base self) self = self.
Proof. destruct self; reflexivity. Qed.

(** With the budget spent, [StringMutator.generate] stops at the parent's
    check: the exception of the base method, the object untouched. *)
Lemma string_generate_exhausted (self : StringMutator.t) :
  Mutator._currentCounter (StringMutator.base self)
  >= Mutator._counterMax (StringMutator.base self) ->
  StringMutator.generate self = (Raise Mutator.budget_exhausted, self).
Proof.
  intros Hge. unfold StringMutator.generate, bind, StringMutator.super.
  rewrite generate_exhausted by exact Hge.
  rewrite set_base_same. reflexivity.
Qed.

(** Below the budget the parent's call succeeds and the generator is asked
    for its next value. *)
Lemma string_generate_below (self : StringMutator.t) :
  Mutator._currentCounter (StringMutator.base self)
  < Mutator._counterMax (StringMutator.base self) ->
  StringMutator.generator (snd (StringMutator.generate self))
  = snd (next (StringMutator.generator self))
  /\ StringMutator.base (snd (StringMutator.generate self))
     = Mutator.set_currentCounter
         (Mutator._currentCounter (StringMutator.base self) + 1)
         (StringMutator.base self).
Proof.
  intros Hlt. unfold StringMutator.generate, bind, StringMutator.super.
  rewrite generate_below by exact Hlt.
  unfold StringMutator.next_value.
  cbn [StringMutator.generator StringMutator.set_base].
  destruct (next (StringMutator.generator self)) as [[value|e] g]; cbn.
  - split; reflexivity.
  - split; reflexivity.
Qed.

End StringMutatorProperties.

(** C9. When [generate()] is called with [currentCounter >= counterMax],
    the exception leaves the object as it was: the base Mutator is unchanged
    (the counter is not incremented), and for a StringMutator the whole
    object is unchanged, its generator included, which [next()] has not been
    called on.  Any number of further calls meets the same exception and the
    same object: exhaustion lasts until a reset. *)
Theorem exhaustion_absorbing `{Collaborators} (self : StringMutator.t) :
  Mutator._currentCounter (StringMutator.base self)
  >= Mutator._counterMax (StringMutator.base self) ->
  Mutator.generate (StringMutator.base self)
  = (Raise Mutator.budget_exhausted, StringMutator.base self)
  /\ StringMutator.generate self = (Raise Mutator.budget_exhausted, self)
  /\ StringMutator.generator (snd (StringMutator.generate self))
     = StringMutator.generator self
  /\ (forall k : nat,
        Mutator.generate_times (S k) (StringMutator.base self)
        = (Raise Mutator.budget_exhausted, StringMutator.base self))
  /\ (forall k : nat,
        StringMutator.generate_times (S k) self
        = (Raise Mutator.budget_exhausted, self)).
Proof.
  intros Hge.
  pose proof (string_generate_exhausted self Hge) as Hgen.
  split; [apply generate_exhausted; exact Hge|].
  split; [exact Hgen|].
  split; [rewrite Hgen; reflexivity|].
  split.
  - intros k. apply generate_times_exhausted. exact Hge.
  - intros k. cbn [StringMutator.generate_times]. unfold bind.
    rewrite Hgen. reflexivity.
Qed.

Lemma exhaustion_absorbing_witness :
  Mutator._currentCounter (StringMutator.base (sample_mutator 3 3))
  >= Mutator._counterMax (StringMutator.base (sample_mutator 3 3))
  /\ StringMutator.generate (sample_mutator 3 3)
     = (Raise Mutator.budget_exhausted, sample_mutator 3 3)
  /\ StringMutator.generator
       (snd (StringMutator.generate_times 5 (sample_mutator 3 3))) = O
  /\ StringMutator.generator
       (snd (StringMutator.generate_times 5 (sample_mutator 3 1))) = 2%nat.
Proof.
  assert (Hge : Mutator._currentCounter (StringMutator.base (sample_mutator 3 3))
                >= Mutator._counterMax (StringMutator.base (sample_mutator 3 3))).
  { simpl. lia. }
  destruct (exhaustion_absorbing (sample_mutator 3 3) Hge)
    as (_ & Hgen & _ & _ & Htimes).
  split; [exact Hge|].
  split; [exact Hgen|].
  split.
  - rewrite (Htimes 4%nat). reflexivity.
  - reflexivity.
Defined.

(** C7. [StringMutator.mutate(data)] raises [NotImplementedError] for every
    object and every argument; it returns no value and the object is
    unchanged. *)
Theorem mutate_not_implemented `{Collaborators} (self : StringMutator.t)
    (data : pyval) :
  StringMutator.mutate data self = (Raise NotImplementedError, self).
Proof. reflexivity. Qed.

(** C6, counterexample. The [naughtyStrings] setter on a list of integers
    and on a tuple of strings.  The list is not a sequence of strings and is stored all the
    same, never the default dictionary (whose elements are strings); the
    tuple is a sequence of strings and the default dictionary is stored in
    its place. *)
Lemma naughtyStrings_not_by_content :
  (is_str_sequence (PyList [PyInt 1]) = false
   /\ forall (C : Collaborators) (self : StringMutator.t),
        StringMutator.naughtyStrings_setter (PyList [PyInt 1]) self
        = (Return tt, StringMutator.set_naughtyStrings (PyList [PyInt 1]) self)
        /\ PyList [PyInt 1] <> PyList (map PyStr DEFAULT_NAUGHTY_STRINGS))
  /\ (is_str_sequence (PyTuple [PyStr "a"]) = true
      /\ forall (C : Collaborators) (self : StringMutator.t),
           StringMutator.naughtyStrings_setter (PyTuple [PyStr "a"]) self
           = (Return tt,
              StringMutator.set_naughtyStrings
                (PyList (map PyStr DEFAULT_NAUGHTY_STRINGS)) self)
           /\ PyTuple [PyStr "a"] <> PyList (map PyStr DEFAULT_NAUGHTY_STRINGS)).
Proof.
  split; (split; [reflexivity|]); intros C self; (split; [reflexivity|]).
  - destruct DEFAULT_NAUGHTY_STRINGS as [|s l]; simpl; discriminate.
  - discriminate.
Qed.

(** C6 (as the code has it). Assigning [naughtyStrings], in the constructor
    or later, never raises.  A value that is not a list makes the default
    dictionary the stored value; a list, whatever its elements, is stored
    itself.  No other attribute changes. *)
Theorem naughtyStrings_setter_spec `{Collaborators} (self : StringMutator.t)
    (v : pyval) :
  fst (StringMutator.naughtyStrings_setter v self) = Return tt
  /\ StringMutator._naughtyStrings
       (snd (StringMutator.naughtyStrings_setter v self))
     = (if isinstance_list v then v
        else PyList (map PyStr DEFAULT_NAUGHTY_STRINGS))
  /\ StringMutator.base (snd (StringMutator.naughtyStrings_setter v self))
     = StringMutator.base self
  /\ StringMutator.domain_dataType
       (snd (StringMutator.naughtyStrings_setter v self))
     = StringMutator.domain_dataType self
  /\ StringMutator.generator
       (snd (StringMutator.naughtyStrings_setter v self))
     = StringMutator.generator self.
Proof.
  unfold StringMutator.naughtyStrings_setter.
  destruct (isinstance_list v); cbn; repeat split.
Qed.

(** ** The length bounds of StringMutator *)

(** The pattern [int_pair] accepts what the source's test accepts. *)
Lemma int_pair_is_int_pair (v : pyval) :
  is_int_pair v = true <-> exists a b, int_pair v = Some (a, b).
Proof.
  split.
  - destruct v as [| | | |l|]; try discriminate.
    destruct l as [|x [|y [|z l]]]; try discriminate.
    destruct x; try discriminate; destruct y; try discriminate.
    intros _. eexists; eexists; reflexivity.
  - intros (a & b & Hab).
    destruct v as [| | | |l|]; try discriminate.
    destruct l as [|x [|y [|z l]]]; try discriminate;
      destruct x; try discriminate; destruct y; try discriminate.
    reflexivity.
Qed.

(** Rounding to 53 bits leaves an integer below [2^53] alone. *)
Lemma round53_small (n : Z) : 0 <= n < 2 ^ 53 -> StringMutator.round53 n = n.
Proof.
  intros [Hlo Hhi]. unfold StringMutator.round53.
  destruct (Z.eq_dec n 0) as [->|Hn]; [reflexivity|].
  assert (Hlog : Z.log2 n < 53) by (apply Z.log2_lt_pow2; lia).
  destruct (Z.leb_spec (Z.log2 n + 1) 53) as [_|Hgt]; [reflexivity|lia].
Qed.

(** On the integers that a float holds exactly, [int(x / 8)] is the quotient
    truncated towards zero. *)
Lemma int_truediv8_exact {S} (s : S) (x : Z) :
  StringMutator.float_exact x ->
  StringMutator.int_truediv8 x s = (Return (Z.quot x 8), s).
Proof.
  unfold StringMutator.float_exact, StringMutator.int_truediv8. intros Hx.
  rewrite round53_small by lia.
  assert (Hbig : 2 ^ 53 < 2 ^ 1027) by (apply Z.pow_lt_mono_r; lia).
  destruct (Z.leb_spec (2 ^ 1027) (Z.abs x)) as [Hge|_]; [lia|].
  unfold ret. f_equal. f_equal.
  rewrite (Z.quot_div x 8) by lia.
  change (Z.sgn 8) with 1. change (Z.abs 8) with 8. ring.
Qed.

(** Beyond that range the float quotient need not be the exact one: the
    integer [2^57 + 24] divided by 8 is [2^54 + 3], the float is
    [2^54 + 4]. *)
Example int_truediv8_rounds :
  StringMutator.int_truediv8 (2 ^ 57 + 24) tt = (Return (2 ^ 54 + 4), tt).
Proof. vm_compute. reflexivity. Qed.

(** Values of [int(x / 8)] as Python computes them: truncation towards zero
    of a negative quotient, a tie rounded to even, a negative operand of more
    than 53 bits, the largest finite quotient and the first overflow. *)
Example int_truediv8_samples :
  StringMutator.int_truediv8 (-9) tt = (Return (-1), tt)
  /\ StringMutator.int_truediv8 (2 ^ 53 + 1) tt = (Return (2 ^ 50), tt)
  /\ StringMutator.int_truediv8 (- (2 ^ 60 + 2 ^ 7 + 2 ^ 6)) tt
     = (Return (-144115188075855904), tt)
  /\ StringMutator.int_truediv8 ((2 ^ 53 - 1) * 2 ^ 974) tt
     = (Return ((2 ^ 53 - 1) * 2 ^ 971), tt)
  /\ StringMutator.int_truediv8 (2 ^ 1027 - 2 ^ 973) tt
     = (Raise OverflowError, tt).
Proof. vm_compute. repeat split. Qed.

(** An integer interval on a domain with a pair of integer bit sizes: the
    bounds are the larger of the lower bounds and the smaller of the upper
    bounds, the domain's taken in bytes. *)
Lemma lengthBounds_intersection {S} (s : S) (a b d0 d1 : Z) :
  StringMutator.float_exact d0 -> StringMutator.float_exact d1 ->
  StringMutator.lengthBounds (PyTuple [PyInt a; PyInt b])
    (PyTuple [PyInt d0; PyInt d1]) s
  = (Return (Z.max a (Z.quot d0 8), Z.min b (Z.quot d1 8)), s).
Proof.
  intros H0 H1. unfold StringMutator.lengthBounds, bind.
  cbn [int_pair option_map fst snd].
  rewrite (int_truediv8_exact s d0 H0). cbn [StringMutator.py_max ret].
  rewrite (int_truediv8_exact s d1 H1). reflexivity.
Qed.

(** An integer interval on a domain without a pair of integer sizes: the
    interval itself. *)
Lemma lengthBounds_interval_only {S} (s : S) (a b : Z) (dom_size : pyval) :
  int_pair dom_size = None ->
  StringMutator.lengthBounds (PyTuple [PyInt a; PyInt b]) dom_size s
  = (Return (a, b), s).
Proof.
  intros Hdom. unfold StringMutator.lengthBounds. rewrite Hdom. reflexivity.
Qed.

(** Neither an integer interval nor a pair of integer sizes: the defaults. *)
Lemma lengthBounds_defaults {S} (s : S) (interval dom_size : pyval) :
  int_pair interval = None -> int_pair dom_size = None ->
  StringMutator.lengthBounds interval dom_size s = (Return (2, 10), s).
Proof.
  intros Hint Hdom. unfold StringMutator.lengthBounds.
  rewrite Hint, Hdom. reflexivity.
Qed.

(** No integer interval on a domain with a pair of integer sizes: the
    comparison of [None] with an integer raises. *)
Lemma lengthBounds_None_on_sized_domain {S} (s : S) (interval : pyval)
    (d0 d1 : Z) :
  int_pair interval = None ->
  StringMutator.float_exact d0 ->
  StringMutator.lengthBounds interval (PyTuple [PyInt d0; PyInt d1]) s
  = (Raise TypeError, s).
Proof.
  intros Hint H0. unfold StringMutator.lengthBounds, bind.
  rewrite Hint. cbn [int_pair option_map].
  rewrite (int_truediv8_exact s d0 H0). reflexivity.
Qed.

(** The example of the class documentation: [interval=(10, 600)] on
    [String(nbChars=(35, 60))] gives lengths between 35 and 60. *)
Example lengthBounds_35_60 :
  StringMutator.lengthBounds (PyTuple [PyInt 10; PyInt 600])
    (size string_35_60) tt
  = (Return (35, 60), tt).
Proof. vm_compute. reflexivity. Qed.

(** With bounds in hand, [initializeGenerator] hands exactly them to the
    generator factory as [minValue] and [maxValue]. *)
Lemma initializeGenerator_passes_bounds `{Collaborators}
    (self : StringMutator.t) (interval : pyval) (lengthBitSize : UnitSize + Z)
    (endchar : string) (mn mx : Z) :
  StringMutator.lengthBounds interval
    (size (StringMutator.domain_dataType self)) self
  = (Return (mn, mx), self) ->
  StringMutator.initializeGenerator interval lengthBitSize endchar self
  = match buildGenerator StringMutator.NG_determinist
            (Mutator._seed (StringMutator.base self)) mn mx
            (StringMutator.lengthBitSize_value lengthBitSize) false with
    | Return lengthGenerator =>
        match StringPaddedGenerator lengthGenerator
                (StringMutator._naughtyStrings self) endchar with
        | Return g => (Return tt, StringMutator.set_generator g self)
        | Raise e => (Raise e, self)
        end
    | Raise e => (Raise e, self)
    end.
Proof.
  intros Hb. unfold StringMutator.initializeGenerator, bind, get.
  rewrite Hb. cbn [fst snd]. unfold StringMutator.call, put.
  destruct (buildGenerator _ _ _ _ _ _) as [lg|e]; [|reflexivity].
  destruct (StringPaddedGenerator _ _ _) as [g|e]; reflexivity.
Qed.

(** C2 (the code at the failing input). With the default
    [interval=(None, None)] on the domain [String(nbChars=(35, 60))], whose
    size is the pair (280, 480) of bit lengths, the bounds computation raises
    [TypeError] at [max(None, 35)]; [initializeGenerator] and the
    constructor's body raise with it, before any generator is built, whatever
    the collaborators, the other arguments and the other attributes are. *)
Theorem default_interval_on_sized_domain_raises `{Collaborators}
    (b : Mutator.t) (ns0 : pyval) (g0 : Generator)
    (naughtyStrings : pyval) (lengthBitSize : UnitSize + Z) (endchar : string) :
  StringMutator.lengthBounds (PyTuple [PyNone; PyNone])
    (PyTuple [PyInt 280; PyInt 480]) tt
  = (Raise TypeError, tt)
  /\ StringMutator.initializeGenerator (PyTuple [PyNone; PyNone])
       lengthBitSize endchar (StringMutator.mk b string_35_60 ns0 g0)
     = (Raise TypeError, StringMutator.mk b string_35_60 ns0 g0)
  /\ fst (StringMutator.init_body naughtyStrings (PyTuple [PyNone; PyNone])
            lengthBitSize endchar (StringMutator.mk b string_35_60 ns0 g0))
     = Raise TypeError
  /\ StringMutator.generator
       (snd (StringMutator.init_body naughtyStrings (PyTuple [PyNone; PyNone])
               lengthBitSize endchar (StringMutator.mk b string_35_60 ns0 g0)))
     = g0.
Proof.
  assert (Hb : forall (S : Type) (s : S),
            StringMutator.lengthBounds (PyTuple [PyNone; PyNone])
              (PyTuple [PyInt 280; PyInt 480]) s
            = (Raise TypeError, s)).
  { intros S s. apply lengthBounds_None_on_sized_domain.
    - reflexivity.
    - unfold StringMutator.float_exact. simpl. lia. }
  assert (Hinit : forall self : StringMutator.t,
            size (StringMutator.domain_dataType self)
            = PyTuple [PyInt 280; PyInt 480] ->
            StringMutator.initializeGenerator (PyTuple [PyNone; PyNone])
              lengthBitSize endchar self
            = (Raise TypeError, self)).
  { intros self Hsize. unfold StringMutator.initializeGenerator, bind, get.
    rewrite Hsize, Hb. reflexivity. }
  split; [apply Hb|].
  split; [apply Hinit; reflexivity|].
  unfold StringMutator.init_body, bind, StringMutator.naughtyStrings_setter.
  destruct (negb (isinstance_list naughtyStrings));
    rewrite Hinit by reflexivity; split; reflexivity.
Qed.

(** ** Bytes and bits *)

(** Eight bits laid out in the order [e] pack back into the byte they came
    from. *)
Lemma byte_of_bits_byte_bits (e : Endianness) (b : byte) :
  byte_of_bits e (byte_bits e b) = b.
Proof.
  unfold byte_bits, byte_bits_lsb.
  rewrite <- (Byte.of_bits_to_bits b) at 3.
  destruct (Byte.to_bits b) as (b0 & b1 & b2 & b3 & b4 & b5 & b6 & b7).
  destruct e; reflexivity.
Qed.

Lemma byte_bits_length (e : Endianness) (b : byte) :
  List.length (byte_bits e b) = 8%nat.
Proof.
  unfold byte_bits, byte_bits_lsb.
  destruct (Byte.to_bits b) as (b0 & b1 & b2 & b3 & b4 & b5 & b6 & b7).
  destruct e; reflexivity.
Qed.

(** Packing the eight bits of a byte followed by more bits gives the byte,
    then the packing of the rest. *)
Lemma pack_byte_bits_app (e : Endianness) (b : byte) (rest : list bool) :
  pack e (byte_bits e b ++ rest) = b :: pack e rest.
Proof.
  rewrite <- (byte_of_bits_byte_bits e b) at 2.
  unfold byte_bits, byte_bits_lsb.
  destruct (Byte.to_bits b) as (b0 & b1 & b2 & b3 & b4 & b5 & b6 & b7).
  destruct e; reflexivity.
Qed.

(** Reading back, in the same bit order, the buffer made from a byte string
    gives the byte string. *)
Lemma pack_frombytes (e : Endianness) (bs : list byte) :
  pack e (frombytes e bs) = bs.
Proof.
  induction bs as [|b bs IH].
  - reflexivity.
  - unfold frombytes. cbn [flat_map].
    rewrite pack_byte_bits_app. f_equal. exact IH.
Qed.

Lemma frombytes_length (e : Endianness) (bs : list byte) :
  List.length (frombytes e bs) = (8 * List.length bs)%nat.
Proof.
  induction bs as [|b bs IH].
  - reflexivity.
  - unfold frombytes in *. cbn [flat_map].
    rewrite length_app, byte_bits_length, IH. cbn [List.length]. lia.
Qed.

(** ** The digest *)

Lemma Z_to_be_length (n : nat) : forall z : Z,
  List.length (SHA512.Z_to_be n z) = n.
Proof.
  induction n as [|n IH]; intros z.
  - reflexivity.
  - cbn [SHA512.Z_to_be]. rewrite length_app, IH. cbn [List.length]. lia.
Qed.

Lemma output_length (H : SHA512.state) :
  List.length (SHA512.output H) = 64%nat.
Proof.
  unfold SHA512.output. rewrite !length_app, !Z_to_be_length. reflexivity.
Qed.

(** A SHA-512 digest is 64 bytes long, whatever the message. *)
Lemma digest_length (msg : list byte) :
  List.length (SHA512.digest msg) = 64%nat.
Proof. unfold SHA512.digest. apply output_length. Qed.

(** The padded message is a whole number of blocks of 128 bytes. *)
Lemma pad_length (msg : list byte) :
  (List.length (SHA512.pad msg) mod 128 = 0)%nat.
Proof.
  unfold SHA512.pad.
  rewrite !length_app, repeat_length, Z_to_be_length. cbn [List.length].
  set (l := List.length msg).
  pose proof (Nat.mod_upper_bound (l + 17) 128 ltac:(lia)) as Hm.
  pose proof (Nat.div_mod_eq (l + 17) 128) as Hd.
  set (q := ((l + 17) / 128)%nat) in *. set (r := ((l + 17) mod 128)%nat) in *.
  destruct (Nat.eq_dec r 0) as [Hr|Hr].
  - rewrite Hr. change ((128 - 0) mod 128)%nat with 0%nat.
    replace (l + (1 + (0 + 16)))%nat with (0 + q * 128)%nat by lia.
    apply Nat.Div0.mod_add.
  - rewrite (Nat.mod_small (128 - r) 128) by lia.
    replace (l + (1 + (128 - r + 16)))%nat with (0 + (q + 1) * 128)%nat by lia.
    apply Nat.Div0.mod_add.
Qed.

(** Known answers of FIPS 180-4: the empty message and "abc". *)
Example digest_empty_prefix :
  firstn 8 (SHA512.digest [])
  = [xcf; x83; xe1; x35; x7e; xef; xb8; xbd].
Proof. vm_compute. reflexivity. Qed.

Example digest_abc_prefix :
  firstn 8 (SHA512.digest [x61; x62; x63])
  = [xdd; xaf; x35; xa1; x93; x61; x7a; xba].
Proof. vm_compute. reflexivity. Qed.

(** Messages of 111, 112 and 200 bytes "a": the longest message of one
    block, the shortest of two, and one with a full first block; the values
    are hashlib's. *)
Example digest_blocks :
  firstn 8 (SHA512.digest (repeat x61 111))
  = [xfa; x91; x21; xc7; xb3; x2b; x9e; x01]
  /\ firstn 8 (SHA512.digest (repeat x61 112))
     = [xc0; x1d; x08; x0e; xfd; x49; x27; x76]
  /\ firstn 8 (SHA512.digest (repeat x61 200))
     = [x4b; x11; x45; x9c; x33; xf5; x2a; x22].
Proof. vm_compute. repeat split. Qed.

(** C3. For every bit buffer and every declared output type,
    [relationOperation] returns a buffer whose byte content is the SHA-512
    digest of the input's byte content; the digest is 64 bytes long and the
    buffer 512 bits.  For the target bytes aa bb, in either bit order, the
    content is the digest of b'\xaa\xbb', whose first 32 bytes are
    13 86 8e 66 e1 0c 88 25 be 20 54 b8 fa 56 fa f0
    69 38 a2 c6 a7 e8 e3 83 0f 0c 27 47 77 b0 43 1f
    and whose next hexadecimal digit is 1. *)
Theorem relationOperation_sha512 (self_dataType : dataType) (msg : bitarray)
    (e : Endianness) :
  tobytes (SHA2_512.relationOperation self_dataType msg)
  = SHA512.digest (tobytes msg)
  /\ List.length (tobytes (SHA2_512.relationOperation self_dataType msg))
     = 64%nat
  /\ List.length (bits (SHA2_512.relationOperation self_dataType msg))
     = 512%nat
  /\ tobytes (aabb e) = [xaa; xbb]
  /\ tobytes (SHA2_512.relationOperation self_dataType (aabb e)) = sha512_aabb
  /\ firstn 32 (tobytes (SHA2_512.relationOperation self_dataType (aabb e)))
     = [x13; x86; x8e; x66; xe1; x0c; x88; x25;
        xbe; x20; x54; xb8; xfa; x56; xfa; xf0;
        x69; x38; xa2; xc6; xa7; xe8; xe3; x83;
        x0f; x0c; x27; x47; x77; xb0; x43; x1f]
  /\ (SHA512.Z_of_byte
        (nth 32 (tobytes (SHA2_512.relationOperation self_dataType (aabb e)))
           x00) / 16 = 1)%Z.
Proof.
  assert (Hbytes : forall m,
            tobytes (SHA2_512.relationOperation self_dataType m)
            = SHA512.digest (tobytes m)).
  { intros m. unfold SHA2_512.relationOperation,
      TypeConverter.convert_Raw_BitArray, tobytes at 1.
    cbn [endian bits]. apply pack_frombytes. }
  assert (Haabb : tobytes (aabb e) = [xaa; xbb]).
  { unfold aabb, tobytes. cbn [endian bits]. apply pack_frombytes. }
  assert (Hdigest : SHA512.digest [xaa; xbb] = sha512_aabb).
  { vm_compute. reflexivity. }
  split; [apply Hbytes|].
  split; [rewrite Hbytes; apply digest_length|].
  split.
  { unfold SHA2_512.relationOperation, TypeConverter.convert_Raw_BitArray.
    cbn [bits]. rewrite frombytes_length, digest_length. reflexivity. }
  split; [exact Haabb|].
  rewrite Hbytes, Haabb, Hdigest.
  split; [reflexivity|].
  split; reflexivity.
Qed.

(** C4. For every bit buffer and every declared output type (unit size,
    endianness, sign), decoding the buffer that [relationOperation] returns
    under that type's parameters gives back the 64 bytes that the digest
    algorithm produced. *)
Theorem relationOperation_round_trip (self_dataType : dataType)
    (msg : bitarray) :
  TypeConverter.convert_BitArray_Raw
    (SHA2_512.relationOperation self_dataType msg)
    (endianness self_dataType) (unitSize self_dataType) (sign self_dataType)
  = SHA512.digest (tobytes msg)
  /\ List.length
       (TypeConverter.convert_BitArray_Raw
          (SHA2_512.relationOperation self_dataType msg)
          (endianness self_dataType) (unitSize self_dataType)
          (sign self_dataType))
     = 64%nat.
Proof.
  assert (Hrt : TypeConverter.convert_BitArray_Raw
                  (SHA2_512.relationOperation self_dataType msg)
                  (endianness self_dataType) (unitSize self_dataType)
                  (sign self_dataType)
                = SHA512.digest (tobytes msg)).
  { unfold TypeConverter.convert_BitArray_Raw, SHA2_512.relationOperation,
      TypeConverter.convert_Raw_BitArray.
    cbn [bits]. apply pack_frombytes. }
  split.
  - exact Hrt.
  - rewrite Hrt. apply digest_length.
Qed.

(** * Further properties of the code *)

(** ** Sessions of calls on a Mutator *)

Lemma perform_counter_cases (tc : pyval -> bool) (c : MutatorSession.call)
    (m : Mutator.t) :
  Mutator._currentCounter (snd (MutatorSession.perform tc c m)) = 0
  \/ Mutator._currentCounter (snd (MutatorSession.perform tc c m))
     = Mutator._currentCounter m
  \/ (Mutator._currentCounter m < Mutator._counterMax m
      /\ Mutator._currentCounter (snd (MutatorSession.perform tc c m))
         = Mutator._currentCounter m + 1).
Proof.
  destruct c; cbn [MutatorSession.perform].
  - unfold bind, Mutator.generate.
    destruct (Z.geb_spec (Mutator._currentCounter m) (Mutator._counterMax m)).
    + right; left; reflexivity.
    + right; right. split; [lia|reflexivity].
  - left; reflexivity.
  - left; reflexivity.
  - right; left. unfold Mutator.updateSeed. destruct (tc seedValue); reflexivity.
  - right; left. unfold MutatorSession.counterMax_setter.
    destruct (tc (PyInt counterMaxValue)); reflexivity.
  - right; left. unfold MutatorSession.currentState_setter.
    destruct (tc (PyInt stateValue)); reflexivity.
Qed.

Lemma perform_keeps_counterMax (tc : pyval -> bool) (c : MutatorSession.call)
    (m : Mutator.t) :
  MutatorSession.keeps_counterMax c = true ->
  Mutator._counterMax (snd (MutatorSession.perform tc c m))
  = Mutator._counterMax m.
Proof.
  destruct c; cbn [MutatorSession.perform MutatorSession.keeps_counterMax];
    try discriminate; intros _.
  - unfold bind, Mutator.generate.
    destruct (Mutator._currentCounter m >=? Mutator._counterMax m); reflexivity.
  - reflexivity.
  - reflexivity.
  - unfold Mutator.updateSeed. destruct (tc seedValue); reflexivity.
  - unfold MutatorSession.currentState_setter.
    destruct (tc (PyInt stateValue)); reflexivity.
Qed.

(** X1. Whatever calls are made on a Mutator (generate, the two resets,
    reseeding, assignments of [counterMax] and [currentState], accepted or
    rejected, succeeding or raising), a counter that is not negative stays
    so. *)
Theorem session_counter_nonnegative (tc : pyval -> bool)
    (cs : list MutatorSession.call) : forall m : Mutator.t,
  0 <= Mutator._currentCounter m ->
  0 <= Mutator._currentCounter (MutatorSession.session tc cs m).
Proof.
  induction cs as [|c cs IH]; intros m Hm.
  - exact Hm.
  - cbn [MutatorSession.session]. apply IH.
    destruct (perform_counter_cases tc c m) as [H0|[Hsame|[_ Hinc]]]; lia.
Qed.

Lemma session_counter_nonnegative_witness :
  0 <= Mutator._currentCounter (Mutator.init (PyInt 10) 1)
  /\ 0 <= Mutator._currentCounter
            (MutatorSession.session isinstance_int
               [MutatorSession.Generate; MutatorSession.Generate;
                MutatorSession.SetCounterMax (-5); MutatorSession.Reset;
                MutatorSession.Generate]
               (Mutator.init (PyInt 10) 1)).
Proof.
  assert (H0 : 0 <= Mutator._currentCounter (Mutator.init (PyInt 10) 1)).
  { simpl. lia. }
  split.
  - exact H0.
  - exact (session_counter_nonnegative isinstance_int _ _ H0).
Defined.

(** X2. As long as [counterMax] is not reassigned, no sequence of calls
    takes the counter past the budget: from [0 <= counterMax] and
    [currentCounter <= counterMax], the counter stays within
    [0 .. counterMax] and [counterMax] keeps its value. *)
Theorem session_counter_within_budget (tc : pyval -> bool)
    (cs : list MutatorSession.call) : forall m : Mutator.t,
  forallb MutatorSession.keeps_counterMax cs = true ->
  0 <= Mutator._counterMax m ->
  0 <= Mutator._currentCounter m <= Mutator._counterMax m ->
  0 <= Mutator._currentCounter (MutatorSession.session tc cs m)
    <= Mutator._counterMax m
  /\ Mutator._counterMax (MutatorSession.session tc cs m)
     = Mutator._counterMax m.
Proof.
  induction cs as [|c cs IH]; intros m Hcs Hmax Hm.
  - split; [exact Hm|reflexivity].
  - cbn [MutatorSession.session]. cbn [forallb] in Hcs.
    apply andb_prop in Hcs. destruct Hcs as [Hc Hcs].
    pose proof (perform_keeps_counterMax tc c m Hc) as Hk.
    destruct (IH (snd (MutatorSession.perform tc c m)) Hcs) as [Hin Hsame].
    + rewrite Hk. exact Hmax.
    + rewrite Hk.
      destruct (perform_counter_cases tc c m) as [H0|[Hs|[Hlt Hinc]]]; lia.
    + rewrite Hk in Hin, Hsame. split; assumption.
Qed.

Lemma session_counter_within_budget_witness :
  forallb MutatorSession.keeps_counterMax
    [MutatorSession.Generate; MutatorSession.UpdateSeed (PyInt 3);
     MutatorSession.Generate; MutatorSession.Generate] = true
  /\ Mutator._currentCounter
       (MutatorSession.session isinstance_int
          [MutatorSession.Generate; MutatorSession.UpdateSeed (PyInt 3);
           MutatorSession.Generate; MutatorSession.Generate]
          (Mutator.init (PyInt 10) 2))
     <= 2.
Proof.
  split.
  - reflexivity.
  - assert (Hmax : 0 <= Mutator._counterMax (Mutator.init (PyInt 10) 2))
      by (simpl; lia).
    assert (Hm : 0 <= Mutator._currentCounter (Mutator.init (PyInt 10) 2)
                   <= Mutator._counterMax (Mutator.init (PyInt 10) 2))
      by (simpl; lia).
    exact (proj2 (proj1 (session_counter_within_budget isinstance_int
             [MutatorSession.Generate; MutatorSession.UpdateSeed (PyInt 3);
              MutatorSession.Generate; MutatorSession.Generate]
             (Mutator.init (PyInt 10) 2) eq_refl Hmax Hm))).
Defined.

(** X3. Assigning [counterMax] (an integer that the type check lets
    through) rearms or cuts the budget without touching the counter: with the
    counter at [c] and the new budget [M], exactly [M - c] further calls of
    [generate()] succeed when [c <= M], and the very next call raises when
    [M <= c]. *)
Theorem counterMax_setter_budget (tc : pyval -> bool) (m : Mutator.t) (M : Z) :
  tc (PyInt M) = true ->
  (forall k : nat, Mutator._currentCounter m + Z.of_nat k <= M ->
     bind (MutatorSession.counterMax_setter tc M)
       (fun _ => Mutator.generate_times k) m
     = (Return tt,
        Mutator.set_currentCounter (Mutator._currentCounter m + Z.of_nat k)
          (MutatorSession.set_counterMax M m)))
  /\ (forall k : nat, Mutator._currentCounter m <= M ->
        M < Mutator._currentCounter m + Z.of_nat k ->
        bind (MutatorSession.counterMax_setter tc M)
          (fun _ => Mutator.generate_times k) m
        = (Raise Mutator.budget_exhausted,
           Mutator.set_currentCounter M (MutatorSession.set_counterMax M m)))
  /\ (M <= Mutator._currentCounter m ->
        bind (MutatorSession.counterMax_setter tc M)
          (fun _ => Mutator.generate) m
        = (Raise Mutator.budget_exhausted, MutatorSession.set_counterMax M m)).
Proof.
  intros Htc. unfold bind, MutatorSession.counterMax_setter. rewrite Htc.
  split; [|split].
  - intros k Hk. rewrite generate_times_within; [reflexivity|].
    cbn [MutatorSession.set_counterMax Mutator._currentCounter
         Mutator._counterMax]. exact Hk.
  - intros k Hle Hk. rewrite generate_times_beyond; [reflexivity| |];
      cbn [MutatorSession.set_counterMax Mutator._currentCounter
           Mutator._counterMax]; assumption.
  - intros Hle. apply generate_exhausted.
    cbn [MutatorSession.set_counterMax Mutator._currentCounter
         Mutator._counterMax]. lia.
Qed.

Lemma counterMax_setter_budget_witness :
  isinstance_int (PyInt 5) = true
  /\ bind (MutatorSession.counterMax_setter isinstance_int 5)
       (fun _ => Mutator.generate_times 2)
       (Mutator.set_currentCounter 3 (Mutator.init (PyInt 10) 3))
     = (Return tt, Mutator.mk (PyInt 10) 0 5 5)
  /\ bind (MutatorSession.counterMax_setter isinstance_int 5)
       (fun _ => Mutator.generate_times 3)
       (Mutator.set_currentCounter 3 (Mutator.init (PyInt 10) 3))
     = (Raise Mutator.budget_exhausted, Mutator.mk (PyInt 10) 0 5 5).
Proof.
  destruct (counterMax_setter_budget isinstance_int
              (Mutator.set_currentCounter 3 (Mutator.init (PyInt 10) 3)) 5
              eq_refl) as (Hwithin & Hbeyond & _).
  split; [reflexivity|].
  split.
  - apply (Hwithin 2%nat). simpl. lia.
  - apply (Hbeyond 3%nat); simpl; lia.
Defined.

(** ** StringMutator.generate below the budget *)

(** One call below the budget: the outcome and the object afterwards. *)
Lemma string_generate_step `{Collaborators}
    (self : StringMutator.t) :
  Mutator._currentCounter (StringMutator.base self)
  < Mutator._counterMax (StringMutator.base self) ->
  fst (StringMutator.generate self)
  = match fst (next (StringMutator.generator self)) with
    | Return value =>
        String_decode value
          (unitSize (StringMutator.domain_dataType self))
          (endianness (StringMutator.domain_dataType self))
          (sign (StringMutator.domain_dataType self))
    | Raise e => Raise e
    end
  /\ snd (StringMutator.generate self)
     = StringMutator.set_generator
         (snd (next (StringMutator.generator self)))
         (StringMutator.set_base
            (Mutator.set_currentCounter
               (Mutator._currentCounter (StringMutator.base self) + 1)
               (StringMutator.base self))
            self).
Proof.
  intros Hlt. unfold StringMutator.generate, bind, StringMutator.super.
  rewrite generate_below by exact Hlt.
  unfold StringMutator.next_value.
  cbn [StringMutator.generator StringMutator.set_base].
  destruct (next (StringMutator.generator self)) as [[value|e] g];
    cbn; split; reflexivity.
Qed.

(** X4. A call of [StringMutator.generate()] below the budget adds one to
    the counter and advances the generator by exactly one [next()], whether
    or not a value comes out: when [next()] or [String.decode] raises, the
    exception reaches the caller and the unit of budget is spent all the
    same.  The outcome is the decoding of the generator's value under the
    domain's unit size, endianness and sign. *)
Theorem string_generate_consumes_budget `{Collaborators}
    (self : StringMutator.t) :
  Mutator._currentCounter (StringMutator.base self)
  < Mutator._counterMax (StringMutator.base self) ->
  fst (StringMutator.generate self)
  = match fst (next (StringMutator.generator self)) with
    | Return value =>
        String_decode value
          (unitSize (StringMutator.domain_dataType self))
          (endianness (StringMutator.domain_dataType self))
          (sign (StringMutator.domain_dataType self))
    | Raise e => Raise e
    end
  /\ snd (StringMutator.generate self)
     = StringMutator.set_generator
         (snd (next (StringMutator.generator self)))
         (StringMutator.set_base
            (Mutator.set_currentCounter
               (Mutator._currentCounter (StringMutator.base self) + 1)
               (StringMutator.base self))
            self).
Proof. exact (string_generate_step self). Qed.

Lemma string_generate_consumes_budget_witness :
  Mutator._currentCounter (StringMutator.base (sample_mutator 3 1))
  < Mutator._counterMax (StringMutator.base (sample_mutator 3 1))
  /\ StringMutator.generate (sample_mutator 3 1)
     = (Return (PyBytes [x41]),
        @StringMutator.mk counting_collaborators
          (Mutator.mk (PyInt 10) 0 3 2) string_35_60 (PyList []) 1%nat).
Proof.
  assert (Hlt : Mutator._currentCounter (StringMutator.base (sample_mutator 3 1))
                < Mutator._counterMax (StringMutator.base (sample_mutator 3 1))).
  { simpl. lia. }
  destruct (string_generate_consumes_budget (sample_mutator 3 1) Hlt)
    as [Hout Hst].
  split; [exact Hlt|].
  rewrite (surjective_pairing (StringMutator.generate (sample_mutator 3 1))).
  rewrite Hout, Hst. reflexivity.
Defined.

(** ** Runs of StringMutator.generate *)

(** X5. With a generator and a codec that never raise, [k] calls of
    [StringMutator.generate()] in a row pull from the generator exactly as
    many values as the budget still covers, the smaller of [k] and
    [counterMax - currentCounter], and add that number to the counter; the
    run ends normally when the budget covers all [k] calls and with the
    budget exception otherwise. *)
Theorem string_generate_times_pulls `{Collaborators} (k : nat) :
  forall self : StringMutator.t,
  (forall g, exists value, fst (next g) = Return value) ->
  (forall value u e s, exists r, String_decode value u e s = Return r) ->
  Mutator._currentCounter (StringMutator.base self)
  <= Mutator._counterMax (StringMutator.base self) ->
  StringMutator.generator (snd (StringMutator.generate_times k self))
  = Nat.iter
      (Z.to_nat (Z.min (Z.of_nat k)
                   (Mutator._counterMax (StringMutator.base self)
                    - Mutator._currentCounter (StringMutator.base self))))
      (fun g => snd (next g)) (StringMutator.generator self)
  /\ Mutator._currentCounter
       (StringMutator.base (snd (StringMutator.generate_times k self)))
     = Mutator._currentCounter (StringMutator.base self)
       + Z.min (Z.of_nat k)
           (Mutator._counterMax (StringMutator.base self)
            - Mutator._currentCounter (StringMutator.base self))
  /\ fst (StringMutator.generate_times k self)
     = if Z.of_nat k <=? Mutator._counterMax (StringMutator.base self)
                         - Mutator._currentCounter (StringMutator.base self)
       then Return tt else Raise Mutator.budget_exhausted.
Proof.
  induction k as [|k IH]; intros self Hnext Hdec Hle.
  - cbn [StringMutator.generate_times]. unfold ret. cbn [fst snd].
    rewrite Z.min_l by (simpl; lia). cbn [Z.to_nat Z.of_nat Nat.iter].
    split; [reflexivity|]. split; [lia|].
    match goal with |- context [?a <=? ?b] => destruct (Z.leb_spec a b) end;
      [reflexivity|simpl in *; lia].
  - cbn [StringMutator.generate_times]. unfold bind.
    destruct (Z.eq_dec (Mutator._currentCounter (StringMutator.base self))
                (Mutator._counterMax (StringMutator.base self))) as [Heq|Hne].
    + rewrite string_generate_exhausted by lia. cbn [fst snd].
      rewrite Z.min_r by lia. rewrite Heq, Z.sub_diag.
      cbn [Z.to_nat Nat.iter].
      split; [reflexivity|]. split; [lia|].
      match goal with |- context [?a <=? ?b] => destruct (Z.leb_spec a b) end;
        [lia|reflexivity].
    + assert (Hlt : Mutator._currentCounter (StringMutator.base self)
                    < Mutator._counterMax (StringMutator.base self)) by lia.
      destruct (string_generate_step self Hlt) as [Hout Hst].
      destruct (Hnext (StringMutator.generator self)) as [value Hv].
      rewrite Hv in Hout.
      destruct (Hdec value (unitSize (StringMutator.domain_dataType self))
                  (endianness (StringMutator.domain_dataType self))
                  (sign (StringMutator.domain_dataType self))) as [r Hr].
      rewrite Hr in Hout.
      rewrite (surjective_pairing (StringMutator.generate self)).
      rewrite Hout, Hst.
      set (self' := StringMutator.set_generator _ _).
      assert (Hc' : Mutator._currentCounter (StringMutator.base self')
                    = Mutator._currentCounter (StringMutator.base self) + 1)
        by reflexivity.
      assert (Hm' : Mutator._counterMax (StringMutator.base self')
                    = Mutator._counterMax (StringMutator.base self))
        by reflexivity.
      assert (Hg' : StringMutator.generator self'
                    = snd (next (StringMutator.generator self)))
        by reflexivity.
      destruct (IH self' Hnext Hdec) as (IHg & IHc & IHo).
      { rewrite Hc', Hm'. lia. }
      rewrite Hc', Hm' in IHg, IHc, IHo. rewrite Hg' in IHg.
      set (c := Mutator._currentCounter (StringMutator.base self)) in *.
      set (mx := Mutator._counterMax (StringMutator.base self)) in *.
      replace (Z.min (Z.of_nat (S k)) (mx - c))
        with (Z.succ (Z.min (Z.of_nat k) (mx - (c + 1)))) by lia.
      rewrite Z2Nat.inj_succ by lia.
      split; [|split].
      * rewrite IHg. rewrite Nat.iter_succ_r. reflexivity.
      * rewrite IHc. lia.
      * rewrite IHo.
        repeat match goal with
               | |- context [?a <=? ?b] => destruct (Z.leb_spec a b)
               end; try reflexivity; lia.
Qed.

Lemma string_generate_times_pulls_witness :
  Mutator._currentCounter (StringMutator.base (sample_mutator 3 1))
  <= Mutator._counterMax (StringMutator.base (sample_mutator 3 1))
  /\ StringMutator.generator
       (snd (StringMutator.generate_times 5 (sample_mutator 3 1)))
     = 2%nat
  /\ fst (StringMutator.generate_times 5 (sample_mutator 3 1))
     = Raise Mutator.budget_exhausted.
Proof.
  assert (Hle : Mutator._currentCounter (StringMutator.base (sample_mutator 3 1))
                <= Mutator._counterMax (StringMutator.base (sample_mutator 3 1))).
  { simpl. lia. }
  destruct (@string_generate_times_pulls counting_collaborators 5
              (sample_mutator 3 1)
              (fun g => ex_intro _ [x41] eq_refl)
              (fun value u e s => ex_intro _ (PyBytes value) eq_refl)
              Hle) as (Hg & _ & Ho).
  split; [exact Hle|].
  split.
  - rewrite Hg. reflexivity.
  - rewrite Ho. reflexivity.
Defined.

(** ** The constructor of StringMutator *)

(** The bounds computation reads and writes no attribute: its outcome is the
    same on every object, which it gives back as it found it. *)
Lemma lengthBounds_pure {S T} (s : S) (t : T) (interval dom_size : pyval) :
  StringMutator.lengthBounds interval dom_size s
  = (fst (StringMutator.lengthBounds interval dom_size t), s).
Proof.
  unfold StringMutator.lengthBounds, bind.
  destruct (int_pair dom_size) as [[d0 d1]|].
  - unfold StringMutator.int_truediv8.
    destruct (2 ^ 1027 <=? StringMutator.round53 (Z.abs d0));
      [reflexivity|].
    unfold ret at 1 6.
    destruct (option_map fst (int_pair interval)) as [a|]; [|reflexivity].
    cbn [StringMutator.py_max ret].
    destruct (2 ^ 1027 <=? StringMutator.round53 (Z.abs d1));
      [reflexivity|].
    unfold ret at 1 5.
    destruct (option_map snd (int_pair interval)) as [b|]; reflexivity.
  - unfold ret at 1 5.
    destruct (option_map fst (int_pair interval));
      destruct (option_map snd (int_pair interval)); reflexivity.
Qed.

(** X6. The constructor's body stores the dictionary first and builds the
    generator second, so the dictionary handed to [StringPaddedGenerator] is
    the stored one: the caller's list, or the default dictionary when the
    argument (such as the default [None]) is not a list.  The length
    generator is asked from the factory with the seed of the mutator, the
    computed bounds, the bit size and [signed=False]; when a collaborator
    raises, the dictionary is already stored and the former generator is
    still in place. *)
Theorem init_body_builds `{Collaborators} (self : StringMutator.t)
    (naughtyStrings interval : pyval) (lengthBitSize : UnitSize + Z)
    (endchar : string) (mn mx : Z) :
  fst (StringMutator.lengthBounds interval
         (size (StringMutator.domain_dataType self)) tt)
  = Return (mn, mx) ->
  StringMutator.init_body naughtyStrings interval lengthBitSize endchar self
  = match buildGenerator StringMutator.NG_determinist
            (Mutator._seed (StringMutator.base self)) mn mx
            (StringMutator.lengthBitSize_value lengthBitSize) false with
    | Return lengthGenerator =>
        match StringPaddedGenerator lengthGenerator
                (if isinstance_list naughtyStrings then naughtyStrings
                 else PyList (map PyStr DEFAULT_NAUGHTY_STRINGS))
                endchar with
        | Return g =>
            (Return tt,
             StringMutator.set_generator g
               (StringMutator.set_naughtyStrings
                  (if isinstance_list naughtyStrings then naughtyStrings
                   else PyList (map PyStr DEFAULT_NAUGHTY_STRINGS)) self))
        | Raise e =>
            (Raise e,
             StringMutator.set_naughtyStrings
               (if isinstance_list naughtyStrings then naughtyStrings
                else PyList (map PyStr DEFAULT_NAUGHTY_STRINGS)) self)
        end
    | Raise e =>
        (Raise e,
         StringMutator.set_naughtyStrings
           (if isinstance_list naughtyStrings then naughtyStrings
            else PyList (map PyStr DEFAULT_NAUGHTY_STRINGS)) self)
    end.
Proof.
  intros Hb.
  assert (Hstored : StringMutator.naughtyStrings_setter naughtyStrings self
          = (Return tt,
             StringMutator.set_naughtyStrings
               (if isinstance_list naughtyStrings then naughtyStrings
                else PyList (map PyStr DEFAULT_NAUGHTY_STRINGS)) self)).
  { unfold StringMutator.naughtyStrings_setter.
    destruct (isinstance_list naughtyStrings); reflexivity. }
  unfold StringMutator.init_body, bind at 1. rewrite Hstored.
  set (self' := StringMutator.set_naughtyStrings _ self).
  rewrite (initializeGenerator_passes_bounds self' interval lengthBitSize
             endchar mn mx).
  - reflexivity.
  - rewrite (lengthBounds_pure self' tt). cbn [StringMutator.domain_dataType self'
      StringMutator.set_naughtyStrings].
    unfold self'. cbn [StringMutator.domain_dataType
                       StringMutator.set_naughtyStrings].
    rewrite Hb. reflexivity.
Qed.

Lemma init_body_builds_witness :
  fst (StringMutator.lengthBounds (PyTuple [PyInt 10; PyInt 600])
         (size (StringMutator.domain_dataType (sample_mutator 3 0))) tt)
  = Return (35, 60)
  /\ StringMutator.init_body PyNone (PyTuple [PyInt 10; PyInt 600])
       (inl SIZE_8) "a" (sample_mutator 3 0)
     = (Return tt,
        @StringMutator.mk counting_collaborators
          (Mutator.mk (PyInt 10) 0 3 0) string_35_60
          (PyList [PyStr ""; PyStr "undefined"]) O).
Proof.
  assert (Hb : fst (StringMutator.lengthBounds (PyTuple [PyInt 10; PyInt 600])
                      (size (StringMutator.domain_dataType (sample_mutator 3 0)))
                      tt)
               = Return (35, 60)).
  { vm_compute. reflexivity. }
  split; [exact Hb|].
  rewrite (@init_body_builds counting_collaborators (sample_mutator 3 0)
             PyNone (PyTuple [PyInt 10; PyInt 600]) (inl SIZE_8) "a"%string
             35 60 Hb).
  reflexivity.
Defined.

(** ** The bounds of the generated lengths *)

(** X7. With an integer interval [(a, b)] and a domain of [d0] to [d1] bits
    (not negative, within the exact range of a float), the bounds handed to
    the length generator are exactly the lengths [l] of the interval whose
    [8 * l] bits do not exceed [d1] and are more than [d0 - 8]: the upper
    bound is exact, the lower bound is rounded down to a whole byte.  When
    [d0] is a whole number of bytes the bounds are exactly the lengths that
    fit both the interval and the domain. *)
Theorem lengthBounds_membership {S} (s : S) (a b d0 d1 : Z) :
  0 <= d0 < 2 ^ 53 -> 0 <= d1 < 2 ^ 53 ->
  exists mn mx,
    StringMutator.lengthBounds (PyTuple [PyInt a; PyInt b])
      (PyTuple [PyInt d0; PyInt d1]) s
    = (Return (mn, mx), s)
    /\ (forall l : Z,
          mn <= l <= mx
          <-> (a <= l <= b /\ d0 - 8 < 8 * l /\ 8 * l <= d1))
    /\ (d0 mod 8 = 0 ->
        forall l : Z,
          mn <= l <= mx <-> (a <= l <= b /\ d0 <= 8 * l <= d1)).
Proof.
  intros H0 H1.
  exists (Z.max a (Z.quot d0 8)), (Z.min b (Z.quot d1 8)).
  split.
  - apply lengthBounds_intersection; unfold StringMutator.float_exact; lia.
  - rewrite !Z.quot_div_nonneg by lia.
    pose proof (Z.div_mod d0 8 ltac:(lia)) as E0.
    pose proof (Z.mod_pos_bound d0 8 ltac:(lia)) as B0.
    pose proof (Z.div_mod d1 8 ltac:(lia)) as E1.
    pose proof (Z.mod_pos_bound d1 8 ltac:(lia)) as B1.
    split.
    + intros l. lia.
    + intros Hal l. lia.
Qed.

Lemma lengthBounds_membership_witness :
  (0 <= 280 < 2 ^ 53) /\ (0 <= 480 < 2 ^ 53)
  /\ exists mn mx,
       StringMutator.lengthBounds (PyTuple [PyInt 10; PyInt 600])
         (PyTuple [PyInt 280; PyInt 480]) tt
       = (Return (mn, mx), tt)
       /\ (mn <= 35 <= mx) /\ ~ (mn <= 34 <= mx) /\ ~ (mn <= 61 <= mx).
Proof.
  assert (H0 : 0 <= 280 < 2 ^ 53) by (split; [lia|reflexivity]).
  assert (H1 : 0 <= 480 < 2 ^ 53) by (split; [lia|reflexivity]).
  split; [exact H0|]. split; [exact H1|].
  destruct (lengthBounds_membership tt 10 600 280 480 H0 H1)
    as (mn & mx & Heq & Hmem & _).
  exists mn, mx. split; [exact Heq|].
  split; [|split].
  - apply (proj2 (Hmem 35)). lia.
  - intros Hin. apply (proj1 (Hmem 34)) in Hin. lia.
  - intros Hin. apply (proj1 (Hmem 61)) in Hin. lia.
Defined.

(** The only values that pass the pair test. *)
Lemma int_pair_inv (v : pyval) (a b : Z) :
  int_pair v = Some (a, b) -> v = PyTuple [PyInt a; PyInt b].
Proof.
  destruct v as [| | | |l|]; try discriminate.
  destruct l as [|x [|y [|z l]]]; try discriminate;
    destruct x; try discriminate; destruct y; try discriminate.
  cbn. intros E. injection E as -> ->. reflexivity.
Qed.

(** X8. The bounds computation fails exactly when the interval is not a
    pair of integers while the domain size is one (sizes within the exact
    range of a float): it then raises [TypeError]; in every other case it
    returns bounds.  It never changes the object. *)
Theorem lengthBounds_raises_iff {S} (s : S) (interval dom_size : pyval) :
  (forall d0 d1, int_pair dom_size = Some (d0, d1) ->
     StringMutator.float_exact d0 /\ StringMutator.float_exact d1) ->
  snd (StringMutator.lengthBounds interval dom_size s) = s
  /\ (is_int_pair interval = false /\ is_int_pair dom_size = true ->
      fst (StringMutator.lengthBounds interval dom_size s) = Raise TypeError)
  /\ (is_int_pair interval = true \/ is_int_pair dom_size = false ->
      exists bounds,
        fst (StringMutator.lengthBounds interval dom_size s) = Return bounds).
Proof.
  intros Hexact.
  assert (Hnone : forall v, is_int_pair v = false -> int_pair v = None).
  { intros v Hv. destruct (int_pair v) as [[x y]|] eqn:E; [|reflexivity].
    assert (is_int_pair v = true)
      by (apply int_pair_is_int_pair; eauto).
    congruence. }
  split; [|split].
  - rewrite (lengthBounds_pure s tt). reflexivity.
  - intros [Hi Hd].
    apply int_pair_is_int_pair in Hd. destruct Hd as (d0 & d1 & Hd).
    destruct (Hexact d0 d1 Hd) as [E0 _].
    apply int_pair_inv in Hd. subst dom_size.
    rewrite lengthBounds_None_on_sized_domain; auto.
  - intros [Hi|Hd].
    + apply int_pair_is_int_pair in Hi. destruct Hi as (a & b & Hi).
      apply int_pair_inv in Hi. subst interval.
      destruct (int_pair dom_size) as [[d0 d1]|] eqn:Ed.
      * destruct (Hexact d0 d1 eq_refl) as [E0 E1].
        apply int_pair_inv in Ed. subst dom_size.
        rewrite lengthBounds_intersection by assumption.
        eexists; reflexivity.
      * rewrite lengthBounds_interval_only by assumption.
        eexists; reflexivity.
    + apply Hnone in Hd.
      destruct (int_pair interval) as [[a b]|] eqn:Ei.
      * apply int_pair_inv in Ei. subst interval.
        rewrite lengthBounds_interval_only by assumption.
        eexists; reflexivity.
      * rewrite lengthBounds_defaults by assumption.
        eexists; reflexivity.
Qed.

Lemma lengthBounds_raises_iff_witness :
  fst (StringMutator.lengthBounds PyNone (PyTuple [PyInt 8; PyInt 16]) tt)
  = Raise TypeError
  /\ exists bounds,
       fst (StringMutator.lengthBounds PyNone (PyTuple [PyNone; PyNone]) tt)
       = Return bounds.
Proof.
  split.
  - refine (proj1 (proj2 (lengthBounds_raises_iff tt PyNone
                            (PyTuple [PyInt 8; PyInt 16]) _)) _).
    + intros d0 d1 Hd. cbn in Hd. injection Hd as <- <-.
      unfold StringMutator.float_exact. split; reflexivity.
    + split; reflexivity.
  - refine (proj2 (proj2 (lengthBounds_raises_iff tt PyNone
                            (PyTuple [PyNone; PyNone]) _)) _).
    + intros d0 d1 Hd. discriminate Hd.
    + right. reflexivity.
Defined.

(** ** The input of the SHA2_512 relation *)

(** A last group of fewer than eight bits packs like the same group filled
    up with zeros. *)
Lemma pack_short_pad (e : Endianness) (l : list bool) (k : nat) :
  (0 < List.length l < 8)%nat -> (List.length l + k <= 8)%nat ->
  pack e (l ++ repeat false k) = pack e l.
Proof.
  intros Hl Hk.
  destruct l as [|b0 [|b1 [|b2 [|b3 [|b4 [|b5 [|b6 [|b7 l]]]]]]]];
    cbn [List.length] in Hl, Hk; try lia;
    do 8 (destruct k as [|k]; [first [destruct e; reflexivity | lia]|]);
    lia.
Qed.

Lemma pack_pad (e : Endianness) (n : nat) : forall (l : list bool) (k : nat),
  (List.length l <= n)%nat ->
  (0 < List.length l mod 8)%nat -> (k <= 8 - List.length l mod 8)%nat ->
  pack e (l ++ repeat false k) = pack e l.
Proof.
  induction n as [|n IH]; intros l k Hn Hr Hk.
  - destruct l; [cbn in Hr; lia|cbn in Hn; lia].
  - destruct (Nat.lt_ge_cases (List.length l) 8) as [Hshort|Hlong].
    + rewrite Nat.mod_small in Hr, Hk by exact Hshort.
      apply pack_short_pad; lia.
    + destruct l as [|b0 [|b1 [|b2 [|b3 [|b4 [|b5 [|b6 [|b7 l]]]]]]]];
        cbn [List.length] in Hlong; try lia.
      assert (Hmod : (List.length (b0 :: b1 :: b2 :: b3 :: b4 :: b5 :: b6
                                     :: b7 :: l) mod 8
                      = List.length l mod 8)%nat).
      { cbn [List.length].
        replace (S (S (S (S (S (S (S (S (List.length l)))))))))
          with (List.length l + 1 * 8)%nat by lia.
        apply Nat.Div0.mod_add. }
      rewrite Hmod in Hr, Hk.
      cbn [app pack]. f_equal.
      apply IH; [cbn [List.length] in Hn; lia|exact Hr|exact Hk].
Qed.

(** X9. The relation reads its input through [tobytes()], which fills the
    last, incomplete byte with zero bits: a bit buffer whose length is not a
    multiple of eight and the same buffer followed by zeros up to the byte
    boundary (or by fewer) give the same result, for every declared output
    type. *)
Theorem relationOperation_ignores_zero_padding (self_dataType : dataType)
    (e : Endianness) (l : list bool) (k : nat) :
  (0 < List.length l mod 8)%nat ->
  (k <= 8 - List.length l mod 8)%nat ->
  SHA2_512.relationOperation self_dataType
    {| endian := e; bits := l ++ repeat false k |}
  = SHA2_512.relationOperation self_dataType {| endian := e; bits := l |}.
Proof.
  intros Hr Hk. unfold SHA2_512.relationOperation, tobytes.
  cbn [endian bits].
  rewrite (pack_pad e (List.length l) l k (Nat.le_refl _) Hr Hk).
  reflexivity.
Qed.

Lemma relationOperation_ignores_zero_padding_witness :
  (0 < List.length [true; false; true] mod 8)%nat
  /\ (5 <= 8 - List.length [true; false; true] mod 8)%nat
  /\ SHA2_512.relationOperation string_35_60
       {| endian := BIG;
          bits := [true; false; true; false; false; false; false; false] |}
     = SHA2_512.relationOperation string_35_60
         {| endian := BIG; bits := [true; false; true] |}.
Proof.
  assert (Hr : (0 < List.length [true; false; true] mod 8)%nat)
    by (cbn; lia).
  assert (Hk : (5 <= 8 - List.length [true; false; true] mod 8)%nat)
    by (cbn; lia).
  split; [exact Hr|]. split; [exact Hk|].
  exact (relationOperation_ignores_zero_padding string_35_60 BIG
           [true; false; true] 5 Hr Hk).
Defined.

(** ** TypeIdentifier.getType *)

Section TypeIdentifierProperties.
Context `{Python2}.

(** Strings two characters at a time. *)
Lemma string_pair_ind (P : string -> Prop) :
  P EmptyString ->
  (forall a, P (String a EmptyString)) ->
  (forall a b s, P s -> P (String a (String b s))) ->
  forall s, P s.
Proof.
  intros P0 P1 P2 s.
  assert (Hboth : P s /\ forall a, P (String a s)).
  { induction s as [|b s [IHs IHs']].
    - split; [exact P0|exact P1].
    - split; [apply IHs'|]. intros a. apply P2. exact IHs. }
  apply Hboth.
Qed.

Lemma hexval_range (c : Ascii.ascii) (x : Z) :
  TypeIdentifier.hexval c = Some x -> 0 <= x < 16.
Proof.
  unfold TypeIdentifier.hexval.
  repeat match goal with
         | |- context [?a <=? ?b] => destruct (Z.leb_spec a b)
         end; cbn; intros E; try discriminate; injection E as <-; lia.
Qed.

(** The chunks of a string of hexadecimal digits are read as bytes. *)
Lemma parse_hex (s : string) :
  TypeIdentifier.is_hex s = true ->
  exists vs, TypeIdentifier.parse (TypeIdentifier.chunks2 s) = Some vs
             /\ Forall (fun v => 0 <= v < 256) vs
             /\ (s <> EmptyString -> vs <> []).
Proof.
  induction s as [|a|a b s IH] using string_pair_ind; intros Hhex.
  - exists []. repeat split; [constructor|congruence].
  - unfold TypeIdentifier.is_hex in Hhex. cbn in Hhex.
    destruct (TypeIdentifier.hexval a) as [x|] eqn:Ea; [|discriminate].
    exists [x]. cbn. rewrite Ea. repeat split.
    + constructor; [|constructor]. apply hexval_range in Ea. lia.
    + discriminate.
  - unfold TypeIdentifier.is_hex in Hhex. cbn in Hhex.
    destruct (TypeIdentifier.hexval a) as [x|] eqn:Ea; [|discriminate].
    destruct (TypeIdentifier.hexval b) as [y|] eqn:Eb; [|discriminate].
    destruct (IH Hhex) as (vs & Hvs & Hrange & _).
    exists (16 * x + y :: vs).
    cbn [TypeIdentifier.chunks2 TypeIdentifier.parse TypeIdentifier.int16].
    rewrite Ea, Eb, Hvs. repeat split.
    + constructor; [|exact Hrange].
      apply hexval_range in Ea. apply hexval_range in Eb. lia.
    + discriminate.
Qed.

(** [chr] succeeds on every element exactly when the loop of [aggregate]
    does; the string then has one character for each element. *)
Lemma aggregate_some (l : list Z) :
  Forall (fun v => 0 <= v < 256) l ->
  exists s, TypeIdentifier.aggregate l = Some s
            /\ (l <> [] -> s <> EmptyString).
Proof.
  induction l as [|i l IH]; intros Hl.
  - exists EmptyString. split; [reflexivity|congruence].
  - inversion Hl as [|? ? Hi Hl']; subst.
    destruct (IH Hl') as (s & Hs & _).
    assert (Hc : TypeIdentifier.chr i
                 = Some (Ascii.ascii_of_N (Z.to_N i))).
    { unfold TypeIdentifier.chr.
      destruct (Z.leb_spec 0 i); [|lia].
      destruct (Z.ltb_spec i 256); [|lia]. reflexivity. }
    exists (String (Ascii.ascii_of_N (Z.to_N i)) s).
    cbn [TypeIdentifier.aggregate]. rewrite Hc, Hs.
    split; [reflexivity|discriminate].
Qed.

Lemma set_order_nil (iter : list Z -> list Z) :
  TypeIdentifier.set_order iter -> iter [] = [].
Proof.
  intros Hiter. destruct (Hiter []) as [_ Hin].
  destruct (iter []) as [|x l]; [reflexivity|].
  exfalso. apply (proj1 (Hin x)). left. reflexivity.
Qed.

Lemma set_order_not_nil (iter : list Z -> list Z) (l : list Z) :
  TypeIdentifier.set_order iter -> l <> [] -> iter l <> [].
Proof.
  intros Hiter Hl E. destruct l as [|x l]; [congruence|].
  destruct (Hiter (x :: l)) as [_ Hin].
  rewrite E in Hin. apply (proj2 (Hin x)). left. reflexivity.
Qed.

Lemma append_binary_not_empty (p : string) :
  (p ++ "binary")%string <> EmptyString.
Proof. destruct p; discriminate. Qed.

(** X10. On a table whose strings are made of hexadecimal digits, of even
    or odd total length, [getType] raises nothing (a last lone digit is read
    as a byte of its own).  It returns the empty string exactly when the
    strings are all empty, and otherwise a list of tags that ends with
    [binary]. *)
Theorem getType_hex (stringsTable : list string) :
  TypeIdentifier.set_order set_iter ->
  TypeIdentifier.is_hex (String.concat EmptyString stringsTable) = true ->
  exists typesList,
    TypeIdentifier.getType stringsTable = TypeIdentifier.Ok typesList
    /\ (typesList = EmptyString
        <-> String.concat EmptyString stringsTable = EmptyString)
    /\ (String.concat EmptyString stringsTable <> EmptyString ->
        exists tags, typesList = (tags ++ "binary")%string).
Proof.
  intros Hiter Hhex. unfold TypeIdentifier.getType.
  destruct (parse_hex _ Hhex) as (vs & Hvs & Hrange & Hne).
  rewrite Hvs.
  assert (Hrange' : Forall (fun v => 0 <= v < 256) (set_iter vs)).
  { apply Forall_forall. intros x Hx.
    apply (proj1 (Forall_forall _ _) Hrange).
    apply (proj2 (Hiter vs)). exact Hx. }
  destruct (aggregate_some _ Hrange') as (s & Hs & Hsne).
  rewrite Hs.
  destruct (String.eqb_spec s EmptyString) as [Hempty|Hfull].
  - exists EmptyString. split; [reflexivity|].
    assert (Hconcat : String.concat EmptyString stringsTable = EmptyString).
    { destruct (string_dec (String.concat EmptyString stringsTable)
                  EmptyString) as [E|E]; [exact E|].
      exfalso. apply Hsne; [|exact Hempty].
      apply set_order_not_nil; [exact Hiter|]. apply Hne. exact E. }
    split.
    + split; intros _; [exact Hconcat|reflexivity].
    + intros E. congruence.
  - eexists. split; [reflexivity|].
    assert (Hconcat : String.concat EmptyString stringsTable <> EmptyString).
    { intros E. rewrite E in Hvs. cbn in Hvs. injection Hvs as <-.
      rewrite (set_order_nil _ Hiter) in Hs. cbn in Hs.
      injection Hs as <-. congruence. }
    split.
    + split; intros E; [|congruence].
      exfalso. exact (append_binary_not_empty _ E).
    + intros _. eexists. reflexivity.
Qed.

Lemma str_all_head (p : Ascii.ascii -> bool) (s : string) :
  TypeIdentifier.str_all p s = true ->
  exists c rest, s = String c rest /\ p c = true
                 /\ forallb p (list_ascii_of_string rest) = true.
Proof.
  destruct s as [|c rest]; [discriminate|].
  cbn. intros E. apply andb_prop in E. destruct E as [Hc Hrest].
  exists c, rest. repeat split; assumption.
Qed.

Lemma str_all_impl (p q : Ascii.ascii -> bool) (s : string) :
  (forall c, p c = true -> q c = true) ->
  TypeIdentifier.str_all p s = true -> TypeIdentifier.str_all q s = true.
Proof.
  intros Hpq. destruct s as [|c rest]; [discriminate|].
  unfold TypeIdentifier.str_all. rewrite !forallb_forall.
  intros Hp x Hx. apply Hpq, Hp, Hx.
Qed.

Lemma isdigit_isascii (c : Ascii.ascii) :
  TypeIdentifier.isdigit_char c = true -> TypeIdentifier.isascii_char c = true.
Proof.
  unfold TypeIdentifier.isdigit_char, TypeIdentifier.isascii_char.
  intros E. apply andb_prop in E. destruct E as [_ E].
  apply Z.leb_le in E. apply Z.ltb_lt. lia.
Qed.

(** X11. Whatever the table, the locale (as long as no digit counts as a
    letter) and the base64 decoder, a result of [getType] is the empty
    string or one of fourteen lists of tags: [num] never comes without
    [alphanum] and [ascii] nor with [alpha], and [alpha] never comes without
    [alphanum]. *)
Theorem getType_results (stringsTable : list string) (typesList : string) :
  (forall c, TypeIdentifier.isdigit_char c = true -> locale_isalpha c = false) ->
  TypeIdentifier.getType stringsTable = TypeIdentifier.Ok typesList ->
  In typesList
    [""; "num,alphanum,ascii,binary"; "num,alphanum,ascii,base64,binary";
     "alpha,alphanum,binary"; "alpha,alphanum,base64,binary";
     "alpha,alphanum,ascii,binary"; "alpha,alphanum,ascii,base64,binary";
     "alphanum,binary"; "alphanum,base64,binary";
     "alphanum,ascii,binary"; "alphanum,ascii,base64,binary";
     "binary"; "base64,binary"; "ascii,binary"; "ascii,base64,binary"]%string.
Proof.
  intros Hlocale. unfold TypeIdentifier.getType.
  destruct (TypeIdentifier.parse _) as [vs|]; [|discriminate].
  destruct (TypeIdentifier.aggregate _) as [s|]; [|discriminate].
  destruct (String.eqb s EmptyString).
  { intros E. injection E as <-. left. reflexivity. }
  assert (Hnum_alnum : TypeIdentifier.str_all TypeIdentifier.isdigit_char s = true ->
                       TypeIdentifier.str_all TypeIdentifier.isalnum_char s = true).
  { apply str_all_impl. intros c Hc. unfold TypeIdentifier.isalnum_char.
    rewrite Hc. apply orb_true_r. }
  assert (Halpha_alnum : TypeIdentifier.str_all locale_isalpha s = true ->
                         TypeIdentifier.str_all TypeIdentifier.isalnum_char s = true).
  { apply str_all_impl. intros c Hc. unfold TypeIdentifier.isalnum_char.
    rewrite Hc. reflexivity. }
  assert (Hnum_ascii : TypeIdentifier.str_all TypeIdentifier.isdigit_char s = true ->
                       TypeIdentifier.isAscii s = true).
  { intros Hd. apply (str_all_impl _ TypeIdentifier.isascii_char) in Hd;
      [|exact isdigit_isascii].
    destruct s; [discriminate|exact Hd]. }
  assert (Hnum_alpha : TypeIdentifier.str_all TypeIdentifier.isdigit_char s = true ->
                       TypeIdentifier.str_all locale_isalpha s = false).
  { intros Hd. destruct (str_all_head _ _ Hd) as (c & rest & -> & Hc & _).
    cbn. rewrite (Hlocale c Hc). reflexivity. }
  destruct (TypeIdentifier.str_all TypeIdentifier.isdigit_char s) eqn:Enum;
    destruct (TypeIdentifier.str_all locale_isalpha s) eqn:Ealpha;
    destruct (TypeIdentifier.str_all TypeIdentifier.isalnum_char s) eqn:Ealnum;
    destruct (TypeIdentifier.isAscii s) eqn:Eascii;
    destruct (TypeIdentifier.isBase64 stringsTable) eqn:Eb64;
    try (specialize (Hnum_alnum eq_refl); discriminate);
    try (specialize (Halpha_alnum eq_refl); discriminate);
    try (specialize (Hnum_ascii eq_refl); discriminate);
    try (specialize (Hnum_alpha eq_refl); discriminate);
    intros E; injection E as <-; cbn; tauto.
Qed.

Lemma forallb_same_members {A} (p : A -> bool) (l1 l2 : list A) :
  (forall x, In x l1 <-> In x l2) -> forallb p l1 = forallb p l2.
Proof.
  intros Hmem.
  destruct (forallb p l1) eqn:E1; destruct (forallb p l2) eqn:E2;
    try reflexivity.
  - rewrite forallb_forall in E1.
    assert (forallb p l2 = true)
      by (apply forallb_forall; intros x Hx; apply E1, Hmem, Hx).
    congruence.
  - rewrite forallb_forall in E2.
    assert (forallb p l1 = true)
      by (apply forallb_forall; intros x Hx; apply E2, Hmem, Hx).
    congruence.
Qed.

(** The characters of the aggregated string are the [chr] of the elements. *)
Lemma aggregate_chars (l : list Z) (s : string) :
  TypeIdentifier.aggregate l = Some s ->
  forall c, In c (list_ascii_of_string s)
            <-> exists i, In i l /\ TypeIdentifier.chr i = Some c.
Proof.
  revert s. induction l as [|i l IH]; intros s Hs c.
  - cbn in Hs. injection Hs as <-. cbn. split; [tauto|].
    intros (j & [] & _).
  - cbn [TypeIdentifier.aggregate] in Hs.
    destruct (TypeIdentifier.chr i) as [ci|] eqn:Ei; [|discriminate].
    destruct (TypeIdentifier.aggregate l) as [s'|]; [|discriminate].
    injection Hs as <-. cbn [list_ascii_of_string In].
    rewrite (IH s' eq_refl c). split.
    + intros [->|(j & Hj & Hc)].
      * exists i. split; [left; reflexivity|exact Ei].
      * exists j. split; [right; exact Hj|exact Hc].
    + intros (j & [->|Hj] & Hc).
      * left. congruence.
      * right. exists j. split; assumption.
Qed.

Lemma aggregate_none (l : list Z) :
  TypeIdentifier.aggregate l = None
  <-> exists i, In i l /\ TypeIdentifier.chr i = None.
Proof.
  induction l as [|i l IH].
  - cbn. split; [discriminate|]. intros (j & [] & _).
  - cbn [TypeIdentifier.aggregate].
    destruct (TypeIdentifier.chr i) as [ci|] eqn:Ei.
    + destruct (TypeIdentifier.aggregate l) as [s'|].
      * split; [discriminate|].
        intros (j & [->|Hj] & Hc); [congruence|].
        assert (E : Some s' = None)
          by (apply (proj2 IH); exists j; split; assumption).
        discriminate.
      * split; [|reflexivity]. intros _.
        destruct (proj1 IH eq_refl) as (j & Hj & Hc).
        exists j. split; [right; exact Hj|exact Hc].
    + split; [|reflexivity]. intros _.
      exists i. split; [left; reflexivity|exact Ei].
Qed.

Lemma aggregate_empty (l : list Z) (s : string) :
  TypeIdentifier.aggregate l = Some s -> (s = EmptyString <-> l = []).
Proof.
  destruct l as [|i l]; cbn [TypeIdentifier.aggregate].
  - intros E. injection E as <-. tauto.
  - destruct (TypeIdentifier.chr i); [|discriminate].
    destruct (TypeIdentifier.aggregate l); [|discriminate].
    intros E. injection E as <-. split; discriminate.
Qed.

Lemma str_all_same_members (p : Ascii.ascii -> bool) (s1 s2 : string) :
  (s1 = EmptyString <-> s2 = EmptyString) ->
  (forall c, In c (list_ascii_of_string s1)
             <-> In c (list_ascii_of_string s2)) ->
  TypeIdentifier.str_all p s1 = TypeIdentifier.str_all p s2.
Proof.
  intros Hempty Hmem.
  destruct s1 as [|a1 r1]; destruct s2 as [|a2 r2].
  - reflexivity.
  - exfalso. assert (E : String a2 r2 = EmptyString) by (apply Hempty; reflexivity).
    discriminate.
  - exfalso. assert (E : String a1 r1 = EmptyString) by (apply Hempty; reflexivity).
    discriminate.
  - unfold TypeIdentifier.str_all. apply forallb_same_members. exact Hmem.
Qed.

(** X12. [getType] looks at the set of byte values only: two tables whose
    chunks are read as the same set of integers, in whatever order and
    number, and on which [isBase64] agrees, get the same answer (the same
    list of tags or the same [ValueError]), in whatever order the set is
    visited. *)
Theorem getType_depends_on_set (t1 t2 : list string) (v1 v2 : list Z) :
  TypeIdentifier.set_order set_iter ->
  TypeIdentifier.parse
    (TypeIdentifier.chunks2 (String.concat EmptyString t1)) = Some v1 ->
  TypeIdentifier.parse
    (TypeIdentifier.chunks2 (String.concat EmptyString t2)) = Some v2 ->
  (forall x, In x v1 <-> In x v2) ->
  TypeIdentifier.isBase64 t1 = TypeIdentifier.isBase64 t2 ->
  TypeIdentifier.getType t1 = TypeIdentifier.getType t2.
Proof.
  intros Hiter H1 H2 Hmem Hb64. unfold TypeIdentifier.getType.
  rewrite H1, H2, Hb64.
  assert (Hmem' : forall x, In x (set_iter v1) <-> In x (set_iter v2)).
  { intros x. rewrite (proj2 (Hiter v1) x), (proj2 (Hiter v2) x). apply Hmem. }
  destruct (TypeIdentifier.aggregate (set_iter v1)) as [s1|] eqn:E1;
    destruct (TypeIdentifier.aggregate (set_iter v2)) as [s2|] eqn:E2.
  - assert (Hempty : s1 = EmptyString <-> s2 = EmptyString).
    { rewrite (aggregate_empty _ _ E1), (aggregate_empty _ _ E2).
      split; intros E; destruct (set_iter v1) as [|x l1];
        destruct (set_iter v2) as [|y l2]; try reflexivity; try discriminate.
      - exfalso. apply (proj2 (Hmem' y)). left. reflexivity.
      - exfalso. apply (proj1 (Hmem' x)). left. reflexivity. }
    assert (Hchars : forall c, In c (list_ascii_of_string s1)
                               <-> In c (list_ascii_of_string s2)).
    { intros c. rewrite (aggregate_chars _ _ E1 c), (aggregate_chars _ _ E2 c).
      split; intros (i & Hi & Hc); exists i; (split; [apply Hmem', Hi|exact Hc]). }
    rewrite (str_all_same_members TypeIdentifier.isdigit_char s1 s2 Hempty Hchars).
    rewrite (str_all_same_members locale_isalpha s1 s2 Hempty Hchars).
    rewrite (str_all_same_members TypeIdentifier.isalnum_char s1 s2 Hempty Hchars).
    unfold TypeIdentifier.isAscii.
    rewrite (forallb_same_members TypeIdentifier.isascii_char _ _ Hchars).
    destruct (String.eqb_spec s1 EmptyString) as [Es1|Es1];
      destruct (String.eqb_spec s2 EmptyString) as [Es2|Es2];
      try reflexivity; tauto.
  - exfalso. destruct (proj1 (aggregate_none _) E2) as (i & Hi & Hc).
    assert (Hn : TypeIdentifier.aggregate (set_iter v1) = None).
    { apply aggregate_none. exists i. split; [apply Hmem', Hi|exact Hc]. }
    congruence.
  - exfalso. destruct (proj1 (aggregate_none _) E1) as (i & Hi & Hc).
    assert (Hn : TypeIdentifier.aggregate (set_iter v2) = None).
    { apply aggregate_none. exists i. split; [apply Hmem', Hi|exact Hc]. }
    congruence.
  - reflexivity.
Qed.

Lemma isBase64_loop_spec (res : bool) (stringsTable : list string) :
  TypeIdentifier.isBase64_loop res stringsTable = true
  <-> res = true
      /\ Forall (fun s => exists tmp, b64decode s = Some tmp
                                      /\ tmp <> EmptyString) stringsTable.
Proof.
  revert res. induction stringsTable as [|s rest IH]; intros res.
  - cbn. split; [intros ->; split; [reflexivity|constructor]|tauto].
  - cbn [TypeIdentifier.isBase64_loop].
    destruct (b64decode s) as [tmp|] eqn:Es.
    + rewrite IH. destruct (String.eqb_spec tmp EmptyString) as [Et|Et].
      * split; [intros [E _]; discriminate|].
        intros [_ Hall]. inversion Hall as [|? ? (tmp' & E' & Hne) _]; subst.
        exfalso. apply Hne. congruence.
      * split.
        -- intros [Hres Hall]. split; [exact Hres|].
           constructor; [exists tmp; split; assumption|exact Hall].
        -- intros [Hres Hall]. split; [exact Hres|].
           inversion Hall; assumption.
    + split; [discriminate|].
      intros [_ Hall]. inversion Hall as [|? ? (tmp' & E' & _) _]; subst.
      congruence.
Qed.

(** X13. [isBase64] holds exactly when every string of the table is decoded
    without [TypeError] into a string that is not empty: one string that
    fails, or decodes to nothing, anywhere in the table, makes the answer
    [False], and the empty table is base64. *)
Theorem isBase64_spec (stringsTable : list string) :
  TypeIdentifier.isBase64 stringsTable = true
  <-> Forall (fun s => exists tmp, b64decode s = Some tmp
                                   /\ tmp <> EmptyString) stringsTable.
Proof.
  unfold TypeIdentifier.isBase64. rewrite isBase64_loop_spec. tauto.
Qed.

End TypeIdentifierProperties.

Lemma getType_hex_witness :
  TypeIdentifier.is_hex (String.concat EmptyString ["4142"; "6"]%string) = true
  /\ exists typesList,
       @TypeIdentifier.getType sample_python2 ["4142"; "6"]%string
       = TypeIdentifier.Ok typesList
       /\ exists tags, typesList = (tags ++ "binary")%string.
Proof.
  assert (Hiter : TypeIdentifier.set_order (@set_iter sample_python2)).
  { intros l. split.
    - apply NoDup_nodup.
    - intros x. apply nodup_In. }
  assert (Hhex : TypeIdentifier.is_hex
                   (String.concat EmptyString ["4142"; "6"]%string) = true)
    by reflexivity.
  split; [exact Hhex|].
  destruct (@getType_hex sample_python2 ["4142"; "6"]%string Hiter Hhex)
    as (typesList & Hres & _ & Htags).
  exists typesList. split; [exact Hres|].
  apply Htags. discriminate.
Defined.

Lemma getType_results_witness :
  @TypeIdentifier.getType sample_python2 ["3132"; "33"]%string
  = TypeIdentifier.Ok "num,alphanum,ascii,binary"%string
  /\ In "num,alphanum,ascii,binary"%string
    [""; "num,alphanum,ascii,binary"; "num,alphanum,ascii,base64,binary";
     "alpha,alphanum,binary"; "alpha,alphanum,base64,binary";
     "alpha,alphanum,ascii,binary"; "alpha,alphanum,ascii,base64,binary";
     "alphanum,binary"; "alphanum,base64,binary";
     "alphanum,ascii,binary"; "alphanum,ascii,base64,binary";
     "binary"; "base64,binary"; "ascii,binary"; "ascii,base64,binary"]%string.
Proof.
  split; [reflexivity|].
  refine (@getType_results sample_python2 ["3132"; "33"]%string _ _ _).
  - intros c Hc. unfold TypeIdentifier.isdigit_char in Hc.
    apply andb_prop in Hc. destruct Hc as [H0 H9].
    apply Z.leb_le in H0. apply Z.leb_le in H9.
    cbn [locale_isalpha sample_python2]. unfold c_locale_isalpha.
    apply orb_false_iff. split; apply andb_false_iff.
    + left. apply Z.leb_gt. lia.
    + left. apply Z.leb_gt. lia.
  - reflexivity.
Defined.

Lemma getType_depends_on_set_witness :
  @TypeIdentifier.getType sample_python2 ["4142"; "41"]%string
  = @TypeIdentifier.getType sample_python2 ["42"; "4241"]%string.
Proof.
  refine (@getType_depends_on_set sample_python2 ["4142"; "41"]%string
            ["42"; "4241"]%string [65; 66; 65] [66; 66; 65] _ eq_refl eq_refl
            _ eq_refl).
  - intros l. split.
    + apply NoDup_nodup.
    + intros x. apply nodup_In.
  - intros x. cbn. tauto.
Defined.

(** ** MMSTDXmlParser.loadFromXML *)

Section MMSTDXmlParserProperties.
Context `{MMSTDXmlParser.Environment}.

(** X14. [loadFromXML] checks the root before anything else, in this order:
    a tag other than [automata], a [type] attribute missing or other than
    [mmstd], a [dictionary] attribute missing or equal to [none] each raise
    their [NameError], whatever the rest of the document and without the
    dictionary file being read.  A document that loads has passed the three
    checks, and the dictionary of the automaton is the one read from the file
    that the attribute names. *)
Theorem loadFromXML_header (rootElement : MMSTDXmlParser.Element) :
  (MMSTDXmlParser.tag rootElement <> "automata"%string ->
   MMSTDXmlParser.loadFromXML rootElement
   = MMSTDXmlParser.Fail
       (MMSTDXmlParser.NameError
          "The parsed XML doesn't represent an automata."))
  /\ (MMSTDXmlParser.tag rootElement = "automata"%string ->
      MMSTDXmlParser.lookup "type" (MMSTDXmlParser.attrib rootElement)
      <> Some "mmstd"%string ->
      MMSTDXmlParser.loadFromXML rootElement
      = MMSTDXmlParser.Fail
          (MMSTDXmlParser.NameError
             "The parsed XML doesn't represent an MMSTD"))
  /\ (MMSTDXmlParser.tag rootElement = "automata"%string ->
      MMSTDXmlParser.lookup "type" (MMSTDXmlParser.attrib rootElement)
      = Some "mmstd"%string ->
      MMSTDXmlParser.lookup "dictionary" (MMSTDXmlParser.attrib rootElement)
      = None
      \/ MMSTDXmlParser.lookup "dictionary" (MMSTDXmlParser.attrib rootElement)
         = Some "none"%string ->
      MMSTDXmlParser.loadFromXML rootElement
      = MMSTDXmlParser.Fail
          (MMSTDXmlParser.NameError
             "The MMSTD doesn't have any dictionary declared"))
  /\ (forall automata,
      MMSTDXmlParser.loadFromXML rootElement = MMSTDXmlParser.Done automata ->
      MMSTDXmlParser.tag rootElement = "automata"%string
      /\ MMSTDXmlParser.lookup "type" (MMSTDXmlParser.attrib rootElement)
         = Some "mmstd"%string
      /\ exists dictionaryFile,
           MMSTDXmlParser.lookup "dictionary"
             (MMSTDXmlParser.attrib rootElement) = Some dictionaryFile
           /\ dictionaryFile <> "none"%string
           /\ MMSTDXmlParser.load_dictionary dictionaryFile
              = MMSTDXmlParser.Done (MMSTDXmlParser.dictionary automata)).
Proof.
  unfold MMSTDXmlParser.loadFromXML, MMSTDXmlParser.get.
  destruct (String.eqb_spec (MMSTDXmlParser.tag rootElement) "automata")
    as [Etag|Etag]; cbn [negb].
  2:{ repeat split; try congruence; intros; discriminate. }
  destruct (MMSTDXmlParser.lookup "type" (MMSTDXmlParser.attrib rootElement))
    as [ty|] eqn:Ety.
  2:{ cbn. repeat split; try congruence; intros; discriminate. }
  destruct (String.eqb_spec ty "mmstd") as [Emm|Emm]; cbn [negb].
  2:{ repeat split; try congruence; intros; discriminate. }
  subst ty.
  destruct (MMSTDXmlParser.lookup "dictionary"
              (MMSTDXmlParser.attrib rootElement)) as [file|] eqn:Edic.
  2:{ cbn. repeat split; try congruence; intros; discriminate. }
  destruct (String.eqb_spec file "none") as [Enone|Enone].
  { subst file. repeat split; try congruence; intros; discriminate. }
  split; [congruence|]. split; [congruence|].
  split; [intros _ _ [E|E]; congruence|].
  intros automata Hload. split; [exact Etag|]. split; [reflexivity|].
  exists file. split; [reflexivity|]. split; [exact Enone|].
  unfold MMSTDXmlParser.and_then in Hload.
  destruct (MMSTDXmlParser.load_dictionary file) as [d|e]; [|discriminate].
  destruct (MMSTDXmlParser.parse_states _ _ _) as [parsed|e]; [|discriminate].
  destruct (MMSTDXmlParser.parse_transitions _ _ _) as [sts|e]; [|discriminate].
  injection Hload as <-. reflexivity.
Qed.

(** *** The states *)



(** *** The transitions *)








(** What [loadFromXML] goes through when it returns an automaton. *)
Lemma loadFromXML_inv (rootElement : MMSTDXmlParser.Element)
    (automata : MMSTDXmlParser.MMSTD) :
  MMSTDXmlParser.loadFromXML rootElement = MMSTDXmlParser.Done automata ->
  exists parsed,
    MMSTDXmlParser.parse_states
      (MMSTDXmlParser.findall rootElement "state") [] None
    = MMSTDXmlParser.Done parsed
    /\ MMSTDXmlParser.parse_transitions (MMSTDXmlParser.dictionary automata)
         (MMSTDXmlParser.findall rootElement "transition") (fst parsed)
       = MMSTDXmlParser.Done (MMSTDXmlParser.states automata)
    /\ MMSTDXmlParser.initialState automata = snd parsed.
Proof.
  unfold MMSTDXmlParser.loadFromXML.
  destruct (negb _); [discriminate|].
  destruct (negb _); [discriminate|].
  destruct (String.eqb _ "none"); [discriminate|].
  unfold MMSTDXmlParser.and_then.
  destruct (MMSTDXmlParser.load_dictionary _) as [d|]; [|discriminate].
  destruct (MMSTDXmlParser.parse_states _ _ _) as [parsed|]; [|discriminate].
  destruct (MMSTDXmlParser.parse_transitions _ _ _) as [sts|] eqn:Et;
    [|discriminate].
  intros E. injection E as <-. exists parsed. cbn. repeat split. exact Et.
Qed.




(** *** The symbols *)

Lemma parse_outputs_spec (d : MMSTDXmlParser.Dictionary)
    (xs : list MMSTDXmlParser.Element) :
  forall acc outs : list MMSTDXmlParser.Output,
  MMSTDXmlParser.parse_outputs d xs acc = MMSTDXmlParser.Done outs ->
  Forall (fun o =>
            exists outputId,
              MMSTDXmlParser.int_text o = MMSTDXmlParser.Done outputId
              /\ (exists entry,
                    MMSTDXmlParser.getEntry d outputId
                    = MMSTDXmlParser.Done entry)
              /\ (exists time,
                    MMSTDXmlParser.py_int (MMSTDXmlParser.get o "time" "0")
                    = Some time)
              /\ (exists p,
                    MMSTDXmlParser.py_float
                      (MMSTDXmlParser.get o "probability" "0") = Some p)) xs
  /\ List.length outs = (List.length acc + List.length xs)%nat.
Proof.
  induction xs as [|o xs IH]; intros acc outs Hrun.
  - cbn in Hrun. injection Hrun as <-. split; [constructor|cbn; lia].
  - cbn [MMSTDXmlParser.parse_outputs] in Hrun.
    unfold MMSTDXmlParser.and_then, MMSTDXmlParser.int_attr,
      MMSTDXmlParser.float_attr in Hrun.
    destruct (MMSTDXmlParser.int_text o) as [outputId|] eqn:Eid;
      [|discriminate].
    destruct (MMSTDXmlParser.py_int (MMSTDXmlParser.get o "time" "0"))
      as [time|] eqn:Etime; [|discriminate].
    destruct (MMSTDXmlParser.py_float
                (MMSTDXmlParser.get o "probability" "0"))
      as [p|] eqn:Ep; [|discriminate].
    destruct (MMSTDXmlParser.getEntry d outputId) as [entry|] eqn:Eentry;
      [|discriminate].
    destruct (IH _ _ Hrun) as [Hall Hlen].
    split.
    + constructor; [|exact Hall].
      exists outputId. split; [exact Eid|].
      split; [exists entry; exact Eentry|].
      split; [exists time; exact Etime|exists p; exact Ep].
    + rewrite Hlen, length_app. cbn. lia.
Qed.

Lemma parse_transition_symbols (d : MMSTDXmlParser.Dictionary)
    (states states' : list MMSTDXmlParser.State)
    (x : MMSTDXmlParser.Element) :
  MMSTDXmlParser.parse_transition d states x = MMSTDXmlParser.Done states' ->
  (exists xmlInput inputId entry,
     MMSTDXmlParser.find x "input" = Some xmlInput
     /\ MMSTDXmlParser.int_text xmlInput = MMSTDXmlParser.Done inputId
     /\ MMSTDXmlParser.getEntry d inputId = MMSTDXmlParser.Done entry)
  /\ Forall (fun o =>
               exists outputId,
                 MMSTDXmlParser.int_text o = MMSTDXmlParser.Done outputId
                 /\ (exists entry,
                       MMSTDXmlParser.getEntry d outputId
                       = MMSTDXmlParser.Done entry)
                 /\ (exists time,
                       MMSTDXmlParser.py_int (MMSTDXmlParser.get o "time" "0")
                       = Some time)
                 /\ (exists p,
                       MMSTDXmlParser.py_float
                         (MMSTDXmlParser.get o "probability" "0") = Some p))
       (MMSTDXmlParser.findall x "output").
Proof.
  unfold MMSTDXmlParser.parse_transition, MMSTDXmlParser.and_then,
    MMSTDXmlParser.int_attr.
  destruct (MMSTDXmlParser.py_int (MMSTDXmlParser.get x "id" "-1"));
    [|discriminate].
  destruct (MMSTDXmlParser.py_int (MMSTDXmlParser.get x "idStart" "-1"));
    [|discriminate].
  destruct (MMSTDXmlParser.py_int (MMSTDXmlParser.get x "idEnd" "-1"));
    [|discriminate].
  destruct (MMSTDXmlParser.find x "input") as [xmlInput|]; [|discriminate].
  destruct (MMSTDXmlParser.int_text xmlInput) as [inputId|] eqn:Einput;
    [|discriminate].
  destruct (MMSTDXmlParser.getEntry d inputId) as [entry|] eqn:Eentry;
    [|discriminate].
  destruct (MMSTDXmlParser.parse_outputs d _ _) as [outs|] eqn:Eouts;
    [|discriminate].
  intros _. split.
  - exists xmlInput, inputId, entry.
    split; [reflexivity|]. split; [exact Einput|exact Eentry].
  - exact (proj1 (parse_outputs_spec d _ _ _ Eouts)).
Qed.

(** X17. A document that [loadFromXML] accepts is well formed down to its
    symbols: every [transition] element has an [input] child whose text is
    an integer with an entry in the dictionary, and each of its [output]
    children has a text that is an integer with an entry in the dictionary,
    a [time] that is an integer and a [probability] that is a float (the
    defaults "0" standing in for missing attributes).  A transition without
    [input], or an input or an output without text, makes the whole loading
    fail. *)
Theorem loadFromXML_symbols (rootElement : MMSTDXmlParser.Element)
    (automata : MMSTDXmlParser.MMSTD) :
  MMSTDXmlParser.loadFromXML rootElement = MMSTDXmlParser.Done automata ->
  Forall (fun x =>
            (exists xmlInput inputText inputId entry,
               MMSTDXmlParser.find x "input" = Some xmlInput
               /\ MMSTDXmlParser.text xmlInput = Some inputText
               /\ MMSTDXmlParser.py_int inputText = Some inputId
               /\ MMSTDXmlParser.getEntry (MMSTDXmlParser.dictionary automata)
                    inputId = MMSTDXmlParser.Done entry)
            /\ Forall (fun o =>
                 exists outputText outputId,
                   MMSTDXmlParser.text o = Some outputText
                   /\ MMSTDXmlParser.py_int outputText = Some outputId
                   /\ (exists entry,
                         MMSTDXmlParser.getEntry
                           (MMSTDXmlParser.dictionary automata) outputId
                         = MMSTDXmlParser.Done entry)
                   /\ (exists time,
                         MMSTDXmlParser.py_int
                           (MMSTDXmlParser.get o "time" "0") = Some time)
                   /\ (exists p,
                         MMSTDXmlParser.py_float
                           (MMSTDXmlParser.get o "probability" "0") = Some p))
                 (MMSTDXmlParser.findall x "output"))
    (MMSTDXmlParser.findall rootElement "transition").
Proof.
  intros Hload.
  destruct (loadFromXML_inv _ _ Hload) as (parsed & _ & Htrans & _).
  assert (Htext : forall e z,
            MMSTDXmlParser.int_text e = MMSTDXmlParser.Done z ->
            exists t, MMSTDXmlParser.text e = Some t
                      /\ MMSTDXmlParser.py_int t = Some z).
  { intros e z. unfold MMSTDXmlParser.int_text.
    destruct (MMSTDXmlParser.text e) as [t|]; [|discriminate].
    destruct (MMSTDXmlParser.py_int t) as [z'|] eqn:Ez; [|discriminate].
    intros E. injection E as <-. exists t. split; [reflexivity|exact Ez]. }
  revert Htrans. generalize (fst parsed) as states.
  induction (MMSTDXmlParser.findall rootElement "transition") as [|x xs IH];
    intros states Hrun.
  - constructor.
  - cbn [MMSTDXmlParser.parse_transitions] in Hrun.
    unfold MMSTDXmlParser.and_then in Hrun.
    destruct (MMSTDXmlParser.parse_transition _ states x) as [states1|] eqn:E1;
      [|discriminate].
    constructor; [|exact (IH _ Hrun)].
    destruct (parse_transition_symbols _ _ _ _ E1)
      as ((xmlInput & inputId & entry & Hfind & Hid & Hentry) & Houts).
    split.
    + destruct (Htext _ _ Hid) as (t & Ht & Hz).
      exists xmlInput, t, inputId, entry. repeat split; assumption.
    + eapply Forall_impl; [|exact Houts].
      intros o (outputId & Hoid & He & Htime & Hp).
      destruct (Htext _ _ Hoid) as (t & Ht & Hz).
      exists t, outputId. repeat split; assumption.
Qed.

End MMSTDXmlParserProperties.



(** The two sides of a transition are not treated alike: leaving from the
    unknown state 7 raises [AttributeError], arriving at it gives a
    transition without end state. *)
Example loadFromXML_unknown_states :
  @MMSTDXmlParser.loadFromXML sample_environment (sample_automata "7" "1")
  = MMSTDXmlParser.Fail MMSTDXmlParser.AttributeError
  /\ @MMSTDXmlParser.loadFromXML sample_environment (sample_automata "0" "7")
     = MMSTDXmlParser.Done (sample_loaded None)
  /\ map (fun s => map MMSTDXmlParser.outputStateTransition
                     (MMSTDXmlParser.transitions s))
       (MMSTDXmlParser.states (sample_loaded None))
     = [[None]; []].
Proof.
  split; [reflexivity|].
  split; reflexivity.
Qed.

Lemma loadFromXML_symbols_witness :
  @MMSTDXmlParser.loadFromXML sample_environment (sample_automata "0" "1")
  = MMSTDXmlParser.Done (sample_loaded (Some 1%nat))
  /\ Forall (fun x =>
               exists xmlInput,
                 MMSTDXmlParser.find x "input" = Some xmlInput)
       (MMSTDXmlParser.findall (sample_automata "0" "1") "transition").
Proof.
  assert (Hload : @MMSTDXmlParser.loadFromXML sample_environment
                    (sample_automata "0" "1")
                  = MMSTDXmlParser.Done (sample_loaded (Some 1%nat)))
    by reflexivity.
  split; [exact Hload|].
  pose proof (@loadFromXML_symbols sample_environment _ _ Hload) as Hall.
  revert Hall. apply Forall_impl.
  intros x [(xmlInput & inputText & inputId & entry & Hfind & _) _].
  exists xmlInput. exact Hfind.
Defined.
